(* ===================================================================== *)
(* AI-media-detection-tool: the layered detection pipeline                *)
(*   src/src/c2pa_checker.py   check_c2pa                                 *)
(*   src/combine_model.py      AIEnsemblePredictor.__init__ / predict     *)
(*   src/app.py                allowed_file, analyze_image, model startup *)
(*                                                                        *)
(* Python values are a tagged union (pyval), dicts are finite maps with   *)
(* string keys, exceptions are values of an outcome type, and the code    *)
(* that touches the file system or calls a library runs in a state and    *)
(* exception monad that records every external call in a trace.           *)
(* A float is the rational it denotes. The two float operations of the    *)
(* source that round, [1 - final_ai_prob] and [confidence * 100], round   *)
(* to the nearest binary64 value, ties to even ([round64]); comparisons   *)
(* are exact. Overflow to infinity cannot happen for the values of this   *)
(* program (at most 100 for a probability in [0,1]) and is not modelled.  *)
(* ===================================================================== *)

From Stdlib Require Import ZArith QArith Qminmax Qround Qpower Lqa.
From Stdlib Require Import PrimFloat FloatOps SpecFloat.
From Stdlib Require Import Ascii String List Lia.
From stdpp Require Import base option gmap strings list fin_maps.

Local Open Scope string_scope.
Set Warnings "-register-all".

(* --------------------------------------------------------------------- *)
(* Python values                                                          *)
(* --------------------------------------------------------------------- *)

Inductive pyval : Type :=
| PNone
| PBool (b : bool)
| PInt (z : Z)
| PFloat (q : Q)
| PStr (s : string)
| PList (l : list pyval)
| PDict (d : gmap string pyval).

(** A Python exception object: its class name and [str(e)]. Only
    subclasses of [Exception] are modelled (everything the handlers of
    the source catch). *)
Record exn : Type := Exn { exn_class : string; exn_str : string }.

Inductive outcome (A : Type) : Type :=
| Return (a : A)
| Raise (e : exn).
Arguments Return {A} a.
Arguments Raise {A} e.

Definition type_name (v : pyval) : string :=
  match v with
  | PNone => "NoneType"
  | PBool _ => "bool"
  | PInt _ => "int"
  | PFloat _ => "float"
  | PStr _ => "str"
  | PList _ => "list"
  | PDict _ => "dict"
  end.

(** [bool(v)]: Python truthiness. *)
Definition truthy (v : pyval) : bool :=
  match v with
  | PNone => false
  | PBool b => b
  | PInt z => negb (z =? 0)%Z
  | PFloat q => negb (Qeq_bool q 0)
  | PStr s => negb (String.eqb s "")
  | PList l => match l with [] => false | _ => true end
  | PDict d => negb (bool_decide (d = ∅))
  end.

Definition AttributeError (v : pyval) (attr : string) : exn :=
  Exn "AttributeError"
      ("'" +:+ type_name v +:+ "' object has no attribute '" +:+ attr +:+ "'").

Definition TypeError (msg : string) : exn := Exn "TypeError" msg.

(** [d.get(key, default)] with a string key: only dicts have [get]. *)
Definition py_get (v : pyval) (key : string) (dflt : pyval) : outcome pyval :=
  match v with
  | PDict d => Return (default dflt (d !! key))
  | _ => Raise (AttributeError v "get")
  end.

(** [d.get(key, default)] where the key is an arbitrary value: lists and
    dicts are unhashable; every key of a parsed JSON object is a string,
    so a hashable key that is not a string is never found. *)
Definition py_get_val (v key dflt : pyval) : outcome pyval :=
  match v with
  | PDict d =>
      match key with
      | PStr k => Return (default dflt (d !! k))
      | PList _ | PDict _ =>
          Raise (TypeError ("unhashable type: '" +:+ type_name key +:+ "'"))
      | _ => Return dflt
      end
  | _ => Raise (AttributeError v "get")
  end.

(** [len(v)] *)
Definition py_len (v : pyval) : outcome nat :=
  match v with
  | PStr s => Return (String.length s)
  | PList l => Return (length l)
  | PDict d => Return (size d)
  | _ => Raise (TypeError ("object of type '" +:+ type_name v +:+ "' has no len()"))
  end.

Fixpoint chars (s : string) : list pyval :=
  match s with
  | EmptyString => []
  | String c t => PStr (String c EmptyString) :: chars t
  end.

(** The items a [for] loop over [v] visits: the elements of a list, the
    keys of a dict, the characters of a string. *)
Definition py_iter (v : pyval) : outcome (list pyval) :=
  match v with
  | PList l => Return l
  | PDict d => Return (PStr <$> (map_to_list d).*1)
  | PStr s => Return (chars s)
  | _ => Raise (TypeError ("'" +:+ type_name v +:+ "' object is not iterable"))
  end.

(** [needle in hay] for two strings: substring test. *)
Fixpoint contains (needle hay : string) : bool :=
  String.prefix needle hay ||
  match hay with
  | EmptyString => false
  | String _ t => contains needle t
  end.

Definition is_str (s : string) (v : pyval) : bool :=
  match v with
  | PStr s' => String.eqb s' s
  | _ => false
  end.

(** [needle in v] for a string needle. *)
Definition py_str_in (needle : string) (v : pyval) : outcome bool :=
  match v with
  | PStr s => Return (contains needle s)
  | PList l => Return (existsb (is_str needle) l)
  | PDict d => Return (bool_decide (is_Some (d !! needle)))
  | _ => Raise (TypeError ("argument of type '" +:+ type_name v +:+ "' is not iterable"))
  end.

(** [v == False] *)
Definition py_eq_False (v : pyval) : bool :=
  match v with
  | PBool b => negb b
  | PInt z => (z =? 0)%Z
  | PFloat q => Qeq_bool q 0
  | _ => false
  end.

(* --------------------------------------------------------------------- *)
(* binary64 arithmetic on the rationals                                   *)
(* --------------------------------------------------------------------- *)

(** The nearest integer, ties to the even one. *)
Definition rne (q : Q) : Z :=
  let f := Qfloor q in
  match Qcompare (q - inject_Z f) (1 # 2) with
  | Lt => f
  | Gt => (f + 1)%Z
  | Eq => if Z.even f then f else (f + 1)%Z
  end.

(** For [x > 0], the exponent [e] with [2^e <= x < 2^(e+1)]. *)
Definition ilog2 (x : Q) : Z :=
  let e0 := (Z.log2 (Qnum x) - Z.log2 (Zpos (Qden x)))%Z in
  if Qle_bool (2 ^ e0) x then e0 else (e0 - 1)%Z.

(** The exponent of the last of the 53 bits of the significand of [x],
    not below that of the subnormal numbers. *)
Definition ulp_exponent (x : Q) : Z := Z.max (ilog2 x - 52) (-1074).

Definition round64_pos (x : Q) : Q :=
  let k := ulp_exponent x in
  (inject_Z (rne (x * 2 ^ (- k))) * 2 ^ k)%Q.

(** The binary64 value nearest to [x], ties to even: what a float
    operation of Python returns for the exact result [x]. *)
Definition round64 (x : Q) : Q :=
  match Qcompare x 0 with
  | Eq => 0
  | Gt => round64_pos x
  | Lt => - round64_pos (- x)
  end.

(** The rational a binary64 float of the kernel denotes (0 for the
    infinities and NaN), to compare [round64] with the machine. *)
Definition float_value (f : float) : Q :=
  match Prim2SF f with
  | S754_finite s m e =>
      ((if s then -1 else 1) * inject_Z (Zpos m) * 2 ^ e)%Q
  | _ => 0
  end.

Fixpoint repeat_string (s : string) (n : nat) : string :=
  match n with
  | O => ""
  | S n' => s +:+ repeat_string s n'
  end.

(** [v * n] for the values [predict] can hand to [analyze_image] (and the
    other types Python multiplies by an int). *)
Definition py_mul_int (v : pyval) (n : Z) : outcome pyval :=
  match v with
  | PFloat q => Return (PFloat (round64 (q * inject_Z n)))
  | PInt z => Return (PInt (z * n))
  | PBool b => Return (PInt ((if b then 1 else 0) * n))
  | PStr s => Return (PStr (repeat_string s (Z.to_nat n)))
  | PList _ | PDict _ | PNone =>
      Raise (TypeError ("unsupported operand type(s) for *: '" +:+ type_name v +:+ "' and 'int'"))
  end.

(* --------------------------------------------------------------------- *)
(* State and exception monad                                              *)
(* --------------------------------------------------------------------- *)

Definition M (S A : Type) : Type := S -> outcome A * S.

Definition ret {S A} (a : A) : M S A := fun s => (Return a, s).
Definition raise {S A} (e : exn) : M S A := fun s => (Raise e, s).

Definition bind {S A B} (m : M S A) (k : A -> M S B) : M S B :=
  fun s => match m s with
           | (Return a, s') => k a s'
           | (Raise e, s') => (Raise e, s')
           end.

Definition liftO {S A} (o : outcome A) : M S A := fun s => (o, s).

(** [try: body except Exception as e: handler(e)] *)
Definition try_except {S A} (body : M S A) (handler : exn -> M S A) : M S A :=
  fun s => match body s with
           | (Return a, s') => (Return a, s')
           | (Raise e, s') => handler e s'
           end.

(** [try: body finally: fin]: [fin] runs on both exits; an exception of
    [fin] replaces the pending one. *)
Definition try_finally {S A} (body : M S A) (fin : M S unit) : M S A :=
  fun s => match body s with
           | (o, s') => match fin s' with
                        | (Return _, s'') => (o, s'')
                        | (Raise e, s'') => (Raise e, s'')
                        end
           end.

Definition get_state {S} : M S S := fun s => (Return s, s).
Definition modify {S} (f : S -> S) : M S unit := fun s => (Return tt, f s).

Declare Scope py_scope.
Delimit Scope py_scope with py.
Notation "'do' x <- m ; k" := (bind m (fun x => k))
  (at level 10, x name, m at level 100, k at level 200) : py_scope.
Notation "'do' ' p <- m ; k" := (bind m (fun x => match x with p => k end))
  (at level 10, p pattern, m at level 100, k at level 200) : py_scope.
Notation "m ;; k" := (bind m (fun _ => k))
  (at level 100, k at level 200, right associativity) : py_scope.
Local Open Scope py_scope.

Definition obind {A B} (o : outcome A) (k : A -> outcome B) : outcome B :=
  match o with
  | Return a => k a
  | Raise e => Raise e
  end.

Notation "'let?' x := o 'in' k" := (obind o (fun x => k))
  (at level 10, x name, o at level 100, k at level 200) : py_scope.

(* --------------------------------------------------------------------- *)
(* The machine a request runs on, and the libraries it calls              *)
(* --------------------------------------------------------------------- *)

(** A decoded RGB image: its pixels. *)
Definition Image : Type := list (Z * Z * Z).

(** Calls that leave the process, in the order they happen. [print] is
    left out. *)
Inductive event : Type :=
| EvSave (path : string)          (* file.save(filepath) *)
| EvSleep (ms : N)                (* time.sleep *)
| EvC2paReader (path : string)    (* c2pa.Reader(file_path).json() *)
| EvJsonLoads                     (* json.loads *)
| EvImageOpen (path : string)     (* Image.open(image_path).convert("RGB") *)
| EvResNet                        (* transform, ResNet50 forward, softmax[0,1] *)
| EvViT                           (* processor, ViT forward, softmax[0,1] *)
| EvPolyTransform                 (* self.poly.transform *)
| EvMetaPredictProba              (* self.meta_model.predict_proba *)
| EvRemove (path : string).       (* os.remove(filepath) *)

Record Machine : Type := {
  fs : gset string;               (* the paths that exist *)
  trace : list event
}.

Definition emit (e : event) : M Machine unit :=
  modify (fun m => {| fs := fs m; trace := trace m ++ [e] |}).

(** A library call: logged, then its outcome. *)
Definition call {A} (e : event) (o : outcome A) : M Machine A :=
  emit e ;; liftO o.

Definition os_path_exists (path : string) : M Machine bool :=
  do m <- get_state; ret (bool_decide (path ∈ fs m)).

Definition os_remove (path : string) : M Machine unit :=
  do m <- get_state;
  if bool_decide (path ∈ fs m)
  then modify (fun m => {| fs := fs m ∖ {[path]}; trace := trace m ++ [EvRemove path] |})
  else raise (Exn "FileNotFoundError"
                  ("[Errno 2] No such file or directory: '" +:+ path +:+ "'")).

Definition file_save (path : string) : M Machine unit :=
  modify (fun m => {| fs := {[path]} ∪ fs m; trace := trace m ++ [EvSave path] |}).

Definition time_sleep (ms : N) : M Machine unit := emit (EvSleep ms).

(** What the libraries outside the repository answer. The classifiers and
    the fitted fusion artifacts are functions that may raise. *)
Record World : Type := {
  C2PA_AVAILABLE : bool;                               (* did [import c2pa] work *)
  c2pa_reader_json : string -> outcome string;         (* Reader(path).json() *)
  json_loads : string -> outcome pyval;
  secure_filename : string -> string;                  (* werkzeug *)
  image_open_rgb : string -> outcome Image;
  torch_load_resnet : outcome (Image -> outcome Q);    (* load_state_dict(torch.load(..)) *)
  vit_from_pretrained : outcome (Image -> outcome Q);
  joblib_load_meta : outcome (list Q -> outcome Q);    (* predict_proba(..)[0, 1] *)
  joblib_load_poly : outcome (list Q -> outcome (list Q))
}.

(* --------------------------------------------------------------------- *)
(* src/src/c2pa_checker.py                                                *)
(* --------------------------------------------------------------------- *)

(** The inner loop: [for action in actions: if "trainedAlgorithmicMedia"
    in action.get("digitalSourceType", ""): is_ai = True] *)
Fixpoint scan_actions (actions : list pyval) (is_ai : bool) : outcome bool :=
  match actions with
  | [] => Return is_ai
  | action :: rest =>
      let? dst := py_get action "digitalSourceType" (PStr "") in
      let? hit := py_str_in "trainedAlgorithmicMedia" dst in
      scan_actions rest (if hit then true else is_ai)
  end.

(** The outer loop over the assertions of the active manifest. *)
Fixpoint scan_assertions (assertions : list pyval) (is_ai : bool) : outcome bool :=
  match assertions with
  | [] => Return is_ai
  | assertion :: rest =>
      let? label := py_get assertion "label" PNone in
      if is_str "c2pa.actions" label
      then
        let? data := py_get assertion "data" (PDict ∅) in
        let? actions := py_get data "actions" (PList []) in
        let? items := py_iter actions in
        let? is_ai' := scan_actions items is_ai in
        scan_assertions rest is_ai'
      else scan_assertions rest is_ai
  end.

Definition dict (l : list (string * pyval)) : gmap string pyval := list_to_map l.

(** Lines 27 to 62: from the text of the manifest store to the record. *)
Definition read_manifest (w : World) (manifest_store_json : string)
  : M Machine (gmap string pyval) :=
  do manifest_data <- call EvJsonLoads (json_loads w manifest_store_json);
  do active_manifest_label <- liftO (py_get manifest_data "active_manifest" PNone);
  if negb (truthy active_manifest_label)
  then ret (dict [("c2pa_present", PBool false);
                  ("message", PStr "Manifest store exists but no active manifest.")])
  else
    liftO (
      let? manifests := py_get manifest_data "manifests" (PDict ∅) in
      let? active_manifest := py_get_val manifests active_manifest_label (PDict ∅) in
      let? validation_status := py_get manifest_data "validation_status" (PList []) in
      let? n := py_len validation_status in
      let is_valid := Nat.eqb n 0 in
      let? signature := py_get active_manifest "signature_info" (PDict ∅) in
      let? issuer := py_get signature "issuer" PNone in
      let? assertions := py_get active_manifest "assertions" (PList []) in
      let? items := py_iter assertions in
      let? is_ai := scan_assertions items false in
      Return (dict [("c2pa_present", PBool true);
                    ("valid", PBool is_valid);
                    ("issuer", issuer);
                    ("ai_generated", PBool is_ai);
                    ("raw_data", manifest_data)])).

(** The body of the [try] of [check_c2pa]. *)
Definition check_c2pa_try (w : World) (file_path : string)
  : M Machine (gmap string pyval) :=
  do manifest_store_json <- call (EvC2paReader file_path) (c2pa_reader_json w file_path);
  if String.eqb manifest_store_json ""
  then ret (dict [("c2pa_present", PBool false);
                  ("message", PStr "No C2PA manifest found")])
  else read_manifest w manifest_store_json.

Definition check_c2pa (w : World) (file_path : string)
  : M Machine (gmap string pyval) :=
  if negb (C2PA_AVAILABLE w)
  then ret (dict [("c2pa_present", PBool false);
                  ("available", PBool false);
                  ("message", PStr "C2PA library not available on this platform")])
  else
    try_except (check_c2pa_try w file_path)
               (fun e => ret (dict [("c2pa_present", PBool false);
                                    ("error", PStr (exn_str e))])).

(* --------------------------------------------------------------------- *)
(* src/combine_model.py                                                   *)
(* --------------------------------------------------------------------- *)

Definition RESNET_PATH : string := "model_output/resnet50_finetuned_benchmark.pth".
Definition META_LEARNER_PATH : string := "ai_detector_meta_learner.joblib".
Definition POLY_TRANSFORM_PATH : string := "polynomial_transformer.joblib".

(** The loaded object: each field stands for the model together with its
    own preprocessing and the extraction of the class 1 probability. *)
Record AIEnsemblePredictor : Type := {
  resnet : Image -> outcome Q;
  vit : Image -> outcome Q;
  meta_model : list Q -> outcome Q;
  poly : list Q -> outcome (list Q)
}.

Definition FileNotFoundError (msg : string) : exn := Exn "FileNotFoundError" msg.

(** [AIEnsemblePredictor.__init__] *)
Definition AIEnsemblePredictor_init (w : World) : M Machine AIEnsemblePredictor :=
  do have_resnet <- os_path_exists RESNET_PATH;
  do resnet_model <-
    (if have_resnet
     then liftO (torch_load_resnet w)
     else raise (FileNotFoundError ("Could not find ResNet model at " +:+ RESNET_PATH)));
  do vit_model <- liftO (vit_from_pretrained w);
  do have_meta <- os_path_exists META_LEARNER_PATH;
  do have_poly <- os_path_exists POLY_TRANSFORM_PATH;
  if have_meta && have_poly
  then
    do meta <- liftO (joblib_load_meta w);
    do pol <- liftO (joblib_load_poly w);
    ret {| resnet := resnet_model; vit := vit_model; meta_model := meta; poly := pol |}
  else raise (FileNotFoundError
    "Meta-learner files not found! Run the training script first to generate .joblib files.").

(** [x > y] on probabilities. *)
Definition Qgtb (x y : Q) : bool := negb (Qle_bool x y).

(** Lines 90 to 97 of [predict]: the label and the confidence. *)
Definition label_and_confidence (final_ai_prob : Q) : string * Q :=
  if Qgtb final_ai_prob (1 # 2)
  then ("AI Image", final_ai_prob)
  else ("Real Image", round64 (1 - final_ai_prob)).

(** [AIEnsemblePredictor.predict]: the second component is a float on the
    normal path and a message string on the two early returns. *)
Definition predict (w : World) (self : AIEnsemblePredictor) (image_path : string)
  : M Machine (string * pyval) :=
  do there <- os_path_exists image_path;
  if negb there
  then ret ("Error", PStr ("Image not found at " +:+ image_path))
  else
    do opened <-
      try_except
        (do img <- call (EvImageOpen image_path) (image_open_rgb w image_path);
         ret (inl img))
        (fun e => ret (inr ("Error", PStr ("Invalid image file: " +:+ exn_str e))));
    match opened with
    | inr early => ret early
    | inl img =>
        do res_prob <- call EvResNet (resnet self img);
        do vit_prob <- call EvViT (vit self img);
        let raw_scores := [res_prob; vit_prob] in
        do poly_features <- call EvPolyTransform (poly self raw_scores);
        do final_ai_prob <- call EvMetaPredictProba (meta_model self poly_features);
        let '(label, confidence) := label_and_confidence final_ai_prob in
        ret (label, PFloat confidence)
    end.

(* --------------------------------------------------------------------- *)
(* src/app.py                                                             *)
(* --------------------------------------------------------------------- *)

Definition UPLOAD_FOLDER : string := "uploads".
Definition ALLOWED_EXTENSIONS : list string := ["png"; "jpg"; "jpeg"; "webp"].

(** Module level, lines 27 to 33: [predictor] stays [None] when the
    constructor raises. *)
Definition load_predictor (w : World) : M Machine (option AIEnsemblePredictor) :=
  try_except (do p <- AIEnsemblePredictor_init w; ret (Some p))
             (fun _ => ret None).

Definition is_dot (c : ascii) : bool := Ascii.eqb c ".".

Fixpoint has_dot (s : string) : bool :=
  match s with
  | EmptyString => false
  | String c t => is_dot c || has_dot t
  end.

(** [s.rsplit('.', 1)[1]] for a string with a dot: what follows the last
    dot. *)
Fixpoint after_last_dot (s : string) : string :=
  match s with
  | EmptyString => ""
  | String c t => if has_dot t then after_last_dot t
                  else if is_dot c then t else ""
  end.

Definition lower_ascii (c : ascii) : ascii :=
  let n := nat_of_ascii c in
  if (65 <=? n)%nat && (n <=? 90)%nat then ascii_of_nat (n + 32) else c.

Fixpoint lower (s : string) : string :=
  match s with
  | EmptyString => ""
  | String c t => String (lower_ascii c) (lower t)
  end.

Definition allowed_file (filename : string) : bool :=
  has_dot filename &&
  existsb (String.eqb (lower (after_last_dot filename))) ALLOWED_EXTENSIONS.

Record FileStorage : Type := { upload_filename : string }.
Record Request : Type := { files : gmap string FileStorage }.

(** [result['layers']]: each layer is [None] until it is set to a dict. *)
Record Layers : Type := {
  c2pa : pyval;
  synthid : pyval;
  ai_model : pyval
}.

(** The [result] dict of [analyze_image]; [error] is the one key that is
    added later. *)
Record AnalysisResult : Type := {
  success : bool;
  filename : string;
  layers : Layers;
  final_verdict : pyval;
  confidence : pyval;
  is_ai_generated : bool;
  error : option string
}.

Inductive Response : Type :=
| BadRequest (message : string)    (* jsonify({'success': False, 'error': message}), 400 *)
| Ok (result : AnalysisResult).    (* jsonify(result) *)

Definition initial_result (name : string) : AnalysisResult :=
  {| success := true;
     filename := name;
     layers := {| c2pa := PNone; synthid := PNone; ai_model := PNone |};
     final_verdict := PNone;
     confidence := PInt 0;
     is_ai_generated := false;
     error := None |}.

(** The request in flight: the machine and the [result] object, which
    keeps every assignment made before an exception. *)
Record Frame : Type := { machine : Machine; result : AnalysisResult }.

Definition zoom {A} (m : M Machine A) : M Frame A :=
  fun f => match m (machine f) with
           | (o, mc) => (o, {| machine := mc; result := result f |})
           end.

Definition update (g : AnalysisResult -> AnalysisResult) : M Frame unit :=
  modify (fun f => {| machine := machine f; result := g (result f) |}).

Definition with_layers (g : Layers -> Layers) (r : AnalysisResult) : AnalysisResult :=
  {| success := success r; filename := filename r; layers := g (layers r);
     final_verdict := final_verdict r; confidence := confidence r;
     is_ai_generated := is_ai_generated r; error := error r |}.

Definition with_c2pa (v : pyval) (l : Layers) : Layers :=
  {| c2pa := v; synthid := synthid l; ai_model := ai_model l |}.
Definition with_synthid (v : pyval) (l : Layers) : Layers :=
  {| c2pa := c2pa l; synthid := v; ai_model := ai_model l |}.
Definition with_ai_model (v : pyval) (l : Layers) : Layers :=
  {| c2pa := c2pa l; synthid := synthid l; ai_model := v |}.

Definition with_final_verdict (v : pyval) (r : AnalysisResult) : AnalysisResult :=
  {| success := success r; filename := filename r; layers := layers r;
     final_verdict := v; confidence := confidence r;
     is_ai_generated := is_ai_generated r; error := error r |}.
Definition with_confidence (v : pyval) (r : AnalysisResult) : AnalysisResult :=
  {| success := success r; filename := filename r; layers := layers r;
     final_verdict := final_verdict r; confidence := v;
     is_ai_generated := is_ai_generated r; error := error r |}.
Definition with_is_ai_generated (b : bool) (r : AnalysisResult) : AnalysisResult :=
  {| success := success r; filename := filename r; layers := layers r;
     final_verdict := final_verdict r; confidence := confidence r;
     is_ai_generated := b; error := error r |}.
Definition with_failure (msg : string) (r : AnalysisResult) : AnalysisResult :=
  {| success := false; filename := filename r; layers := layers r;
     final_verdict := final_verdict r; confidence := confidence r;
     is_ai_generated := is_ai_generated r; error := Some msg |}.

(** [d[key] = v] on a layer: the layer object is changed in place. *)
Definition setitem (key : string) (v : pyval) (layer : pyval) : pyval :=
  match layer with
  | PDict d => PDict (<[key := v]> d)
  | _ => layer
  end.

(** [layer.get(key)] on a layer that holds a dict. *)
Definition getitem (key : string) (layer : pyval) : pyval :=
  match layer with
  | PDict d => default PNone (d !! key)
  | _ => PNone
  end.

(** [result['layers']['c2pa']] and [c2pa_result] are one object, so the
    reads of [c2pa_result] go to the layer. *)
Definition c2pa_result_get (key : string) : M Frame pyval :=
  do f <- get_state; ret (getitem key (c2pa (layers (result f)))).

Definition skipped (reason : string) : pyval :=
  PDict (dict [("status", PStr "skipped"); ("reason", PStr reason)]).

(** The body of the [try] of [analyze_image], lines 91 to 141. *)
Definition analyze_try (w : World) (predictor : option AIEnsemblePredictor)
    (filepath : string) : M Frame unit :=
  zoom (time_sleep 1500) ;;
  do c2pa_result <- zoom (check_c2pa w filepath);
  update (with_layers (with_c2pa (PDict c2pa_result))) ;;
  do available <- c2pa_result_get "available";
  (if py_eq_False available
   then update (with_layers (fun l => with_c2pa (setitem "status" (PStr "unavailable") (c2pa l)) l))
   else ret tt) ;;
  do present <- c2pa_result_get "c2pa_present";
  if truthy present
  then
    update (with_confidence (PFloat 100)) ;;
    update (with_is_ai_generated true) ;;
    update (with_final_verdict (PStr "AI Generated (C2PA Verified)")) ;;
    update (with_layers (fun l => with_c2pa (setitem "status" (PStr "verified") (c2pa l)) l)) ;;
    zoom (time_sleep 500) ;;
    update (with_layers (with_synthid (skipped "C2PA verification successful"))) ;;
    zoom (time_sleep 500) ;;
    update (with_layers (with_ai_model (skipped "C2PA verification successful")))
  else
    zoom (time_sleep 1000) ;;
    update (with_layers (with_synthid (skipped "Not implemented"))) ;;
    zoom (time_sleep 2000) ;;
    match predictor with
    | Some p =>
        do '(label, conf) <- zoom (predict w p filepath);
        do confidence_percent <- liftO (py_mul_int conf 100);
        update (with_layers (with_ai_model
          (PDict (dict [("status", PStr "complete");
                        ("label", PStr label);
                        ("confidence", confidence_percent)])))) ;;
        update (with_confidence confidence_percent) ;;
        update (with_is_ai_generated (String.eqb label "AI Image")) ;;
        update (with_final_verdict (PStr label))
    | None =>
        update (with_layers (with_ai_model
          (PDict (dict [("status", PStr "error");
                        ("error", PStr "AI model not loaded")])))) ;;
        update (with_final_verdict (PStr "Unknown (Model unavailable)"))
    end.

(** [finally]: remove the uploaded file when it is still there. *)
Definition cleanup (filepath : string) : M Machine unit :=
  do there <- os_path_exists filepath;
  if there then os_remove filepath else ret tt.

(** Lines 77 to 152: the [result] object, [try], [except], [finally]. *)
Definition analyze_staged (w : World) (predictor : option AIEnsemblePredictor)
    (name filepath : string) : M Machine AnalysisResult :=
  fun mc =>
    let body :=
      try_finally
        (try_except (analyze_try w predictor filepath)
                    (fun e => update (with_failure (exn_str e))))
        (zoom (cleanup filepath)) in
    match body {| machine := mc; result := initial_result name |} with
    | (Return _, f) => (Return (result f), machine f)
    | (Raise e, f) => (Raise e, machine f)
    end.

(** The route [/api/analyze]. [predictor] is the module global. *)
Definition analyze_image (w : World) (predictor : option AIEnsemblePredictor)
    (request : Request) : M Machine Response :=
  match files request !! "file" with
  | None => ret (BadRequest "No file provided")
  | Some file =>
      if String.eqb (upload_filename file) ""
      then ret (BadRequest "No file selected")
      else if negb (allowed_file (upload_filename file))
      then ret (BadRequest "File type not allowed")
      else
        let name := secure_filename w (upload_filename file) in
        let filepath := UPLOAD_FOLDER +:+ "/" +:+ name in
        file_save filepath ;;
        do r <- analyze_staged w predictor name filepath;
        ret (Ok r)
  end.

(* --------------------------------------------------------------------- *)
(* Vocabulary of the specification                                        *)
(* --------------------------------------------------------------------- *)

Definition start : Machine := {| fs := ∅; trace := [] |}.

(** The Manifest Record of a file and the calls made to obtain it:
    [check_c2pa] does not read the machine, see [check_c2pa_run]. *)
Definition manifest_record (w : World) (file_path : string)
  : outcome (gmap string pyval) := (check_c2pa w file_path start).1.
Definition manifest_events (w : World) (file_path : string) : list event :=
  trace (check_c2pa w file_path start).2.

(** What [predict] answers for a staged file that exists, and the calls
    it makes, see [predict_run]. *)
Definition ensemble_outcome (w : World) (p : AIEnsemblePredictor) (path : string)
  : outcome (string * pyval) :=
  (predict w p path {| fs := {[path]}; trace := [] |}).1.
Definition ensemble_events (w : World) (p : AIEnsemblePredictor) (path : string)
  : list event :=
  trace (predict w p path {| fs := {[path]}; trace := [] |}).2.

(** The fields [present] and [ai_generated_signal] of a Manifest Record. *)
Definition present (d : gmap string pyval) : bool :=
  truthy (default PNone (d !! "c2pa_present")).
Definition ai_generated_signal (d : gmap string pyval) : bool :=
  truthy (default PNone (d !! "ai_generated")).

(** The records [check_c2pa] can build. *)
Inductive record_shape : gmap string pyval -> Prop :=
| shape_unavailable :
    record_shape (dict [("c2pa_present", PBool false);
                        ("available", PBool false);
                        ("message", PStr "C2PA library not available on this platform")])
| shape_no_manifest :
    record_shape (dict [("c2pa_present", PBool false);
                        ("message", PStr "No C2PA manifest found")])
| shape_no_active :
    record_shape (dict [("c2pa_present", PBool false);
                        ("message", PStr "Manifest store exists but no active manifest.")])
| shape_error (msg : string) :
    record_shape (dict [("c2pa_present", PBool false); ("error", PStr msg)])
| shape_present (is_valid is_ai : bool) (issuer raw : pyval) :
    record_shape (dict [("c2pa_present", PBool true);
                        ("valid", PBool is_valid);
                        ("issuer", issuer);
                        ("ai_generated", PBool is_ai);
                        ("raw_data", raw)]).

(** Line 97 and 98 applied to the record. *)
Definition mark_unavailable (d : gmap string pyval) : gmap string pyval :=
  if py_eq_False (default PNone (d !! "available"))
  then <["status" := PStr "unavailable"]> d
  else d.

(** Classifier and fusion calls. *)
Definition is_inference (e : event) : bool :=
  match e with
  | EvResNet | EvViT | EvPolyTransform | EvMetaPredictProba => true
  | _ => false
  end.
Definition inference_events (t : list event) : list event := List.filter is_inference t.

Definition is_remove (path : string) (e : event) : bool :=
  match e with
  | EvRemove p => String.eqb p path
  | _ => false
  end.
Definition removals (path : string) (t : list event) : nat :=
  length (List.filter (is_remove path) t).

(** The Layer Outcome of the specification read off a layer of the
    result: [None] is Pending, a dict is classified by its status. *)
Inductive LayerOutcome : Type :=
| Pending
| Skipped (reason : pyval)
| Complete (label conf : pyval)
| Error (message : pyval)
| Unavailable
| Unclassified.

Definition outcome_of (layer : pyval) : LayerOutcome :=
  match layer with
  | PNone => Pending
  | PDict d =>
      match d !! "status" with
      | Some (PStr s) =>
          if String.eqb s "skipped" then Skipped (getitem "reason" layer)
          else if String.eqb s "complete"
               then Complete (getitem "label" layer) (getitem "confidence" layer)
          else if String.eqb s "error" then Error (getitem "error" layer)
          else if String.eqb s "unavailable" then Unavailable
          else Unclassified
      | _ => Unclassified
      end
  | _ => Unclassified
  end.

(** The upload a request stages: the three checks of lines 62 to 70. *)
Definition upload_of (request : Request) : option string :=
  match files request !! "file" with
  | None => None
  | Some file =>
      if String.eqb (upload_filename file) "" then None
      else if allowed_file (upload_filename file) then Some (upload_filename file)
      else None
  end.

Definition staged_path (w : World) (upload : string) : string :=
  UPLOAD_FOLDER +:+ "/" +:+ secure_filename w upload.

(** Whether the request ended on the short-circuit path. *)
Definition short_circuited (r : AnalysisResult) (t : list event) : Prop :=
  confidence r = PFloat 100 /\
  is_ai_generated r = true /\
  final_verdict r = PStr "AI Generated (C2PA Verified)" /\
  outcome_of (synthid (layers r)) = Skipped (PStr "C2PA verification successful") /\
  outcome_of (ai_model (layers r)) = Skipped (PStr "C2PA verification successful") /\
  inference_events t = [].

(** Whether the request went through the whole ensemble path. *)
Definition ran_ensemble (r : AnalysisResult) (t : list event) : Prop :=
  outcome_of (synthid (layers r)) = Skipped (PStr "Not implemented") /\
  inference_events t = [EvResNet; EvViT; EvPolyTransform; EvMetaPredictProba].

(** The events a request added to the trace. *)
Definition new_events (before after : Machine) : list event :=
  drop (length (trace before)) (trace after).

(** Complete, Error and Unavailable are the settled outcomes. *)
Definition settled (o : LayerOutcome) : bool :=
  match o with
  | Complete _ _ | Error _ | Unavailable => true
  | _ => false
  end.

(** The four ways through the [try] of [analyze_image] for a staged
    upload [name] whose Manifest Record is [d]: the result and the events
    between the provenance check and the cleanup. *)
Inductive request_path (w : World) (pr : option AIEnsemblePredictor)
    (name : string) (d : gmap string pyval)
  : AnalysisResult -> list event -> Prop :=
| path_short :
    present d = true ->
    request_path w pr name d
      {| success := true;
         filename := secure_filename w name;
         layers :=
           {| c2pa := PDict (<["status" := PStr "verified"]> (mark_unavailable d));
              synthid := skipped "C2PA verification successful";
              ai_model := skipped "C2PA verification successful" |};
         final_verdict := PStr "AI Generated (C2PA Verified)";
         confidence := PFloat 100;
         is_ai_generated := true;
         error := None |}
      [EvSleep 500; EvSleep 500]
| path_no_model :
    present d = false ->
    pr = None ->
    request_path w pr name d
      {| success := true;
         filename := secure_filename w name;
         layers :=
           {| c2pa := PDict (mark_unavailable d);
              synthid := skipped "Not implemented";
              ai_model := PDict (dict [("status", PStr "error");
                                       ("error", PStr "AI model not loaded")]) |};
         final_verdict := PStr "Unknown (Model unavailable)";
         confidence := PInt 0;
         is_ai_generated := false;
         error := None |}
      [EvSleep 1000; EvSleep 2000]
| path_complete p label conf cp :
    present d = false ->
    pr = Some p ->
    ensemble_outcome w p (staged_path w name) = Return (label, conf) ->
    py_mul_int conf 100 = Return cp ->
    request_path w pr name d
      {| success := true;
         filename := secure_filename w name;
         layers :=
           {| c2pa := PDict (mark_unavailable d);
              synthid := skipped "Not implemented";
              ai_model := PDict (dict [("status", PStr "complete");
                                       ("label", PStr label);
                                       ("confidence", cp)]) |};
         final_verdict := PStr label;
         confidence := cp;
         is_ai_generated := String.eqb label "AI Image";
         error := None |}
      ([EvSleep 1000; EvSleep 2000] ++ ensemble_events w p (staged_path w name))
| path_raise p e :
    present d = false ->
    pr = Some p ->
    ensemble_outcome w p (staged_path w name) = Raise e ->
    request_path w pr name d
      {| success := false;
         filename := secure_filename w name;
         layers :=
           {| c2pa := PDict (mark_unavailable d);
              synthid := skipped "Not implemented";
              ai_model := PNone |};
         final_verdict := PNone;
         confidence := PInt 0;
         is_ai_generated := false;
         error := Some (exn_str e) |}
      ([EvSleep 1000; EvSleep 2000] ++ ensemble_events w p (staged_path w name)).

(* --------------------------------------------------------------------- *)
(* A sample installation                                                  *)
(* --------------------------------------------------------------------- *)

Definition dq : string := String (ascii_of_nat 34) EmptyString.
Definition q (s : string) : string := dq +:+ s +:+ dq.

(** A manifest store with one manifest, one action assertion. *)
Definition store_json (label issuer source_type : string) : string :=
  "{" +:+ q "active_manifest" +:+ ": " +:+ q label +:+ ", " +:+
  q "manifests" +:+ ": {" +:+ q label +:+ ": {" +:+
  q "signature_info" +:+ ": {" +:+ q "issuer" +:+ ": " +:+ q issuer +:+ "}, " +:+
  q "assertions" +:+ ": [{" +:+ q "label" +:+ ": " +:+ q "c2pa.actions" +:+ ", " +:+
  q "data" +:+ ": {" +:+ q "actions" +:+ ": [{" +:+
  q "action" +:+ ": " +:+ q "c2pa.created" +:+ ", " +:+
  q "digitalSourceType" +:+ ": " +:+ q source_type +:+ "}]}}]}}}".

Definition store (label issuer source_type : string) : pyval :=
  let action := PDict (dict [("action", PStr "c2pa.created");
                             ("digitalSourceType", PStr source_type)]) in
  let assertion := PDict (dict [("label", PStr "c2pa.actions");
                                ("data", PDict (dict [("actions", PList [action])]))]) in
  let manifest := PDict (dict [("signature_info", PDict (dict [("issuer", PStr issuer)]));
                               ("assertions", PList [assertion])]) in
  PDict (dict [("active_manifest", PStr label);
               ("manifests", PDict (dict [(label, manifest)]))]).

Definition generated_json : string :=
  store_json "urn:uuid:generated" "OpenAI"
    "http://cv.iptc.org/newscodes/digitalsourcetype/trainedAlgorithmicMedia".
Definition generated_store : pyval :=
  store "urn:uuid:generated" "OpenAI"
    "http://cv.iptc.org/newscodes/digitalsourcetype/trainedAlgorithmicMedia".

Definition camera_json : string :=
  store_json "urn:uuid:camera" "Leica Camera AG"
    "http://cv.iptc.org/newscodes/digitalsourcetype/digitalCapture".
Definition camera_store : pyval :=
  store "urn:uuid:camera" "Leica Camera AG"
    "http://cv.iptc.org/newscodes/digitalsourcetype/digitalCapture".

Definition inactive_json : string := "{" +:+ q "manifests" +:+ ": {}}".
Definition inactive_store : pyval := PDict (dict [("manifests", PDict ∅)]).

(** What the reader finds in the uploads of the examples. *)
Definition sample_reader (path : string) : outcome string :=
  if String.eqb path "uploads/generated.png" then Return generated_json
  else if String.eqb path "uploads/camera.jpg" then Return camera_json
  else if String.eqb path "uploads/inactive.png" then Return inactive_json
  else if String.eqb path "uploads/broken.png" then Return "{"
  else if String.eqb path "uploads/empty.png" then Return ""
  else Raise (Exn "C2paError" "ManifestNotFound: no JUMBF data found").

Definition sample_loads (text : string) : outcome pyval :=
  if String.eqb text generated_json then Return generated_store
  else if String.eqb text camera_json then Return camera_store
  else if String.eqb text inactive_json then Return inactive_store
  else Raise (Exn "JSONDecodeError"
    "Expecting property name enclosed in double quotes: line 1 column 2 (char 1)").

(** [notes.png] is a text file, [blank.png] decodes to no pixels. *)
Definition sample_open (path : string) : outcome Image :=
  if String.eqb path "uploads/notes.png"
  then Raise (Exn "UnidentifiedImageError"
                  "cannot identify image file 'uploads/notes.png'")
  else if String.eqb path "uploads/blank.png" then Return []
  else Return [(200%Z, 120%Z, 40%Z)].

Definition sample_resnet (img : Image) : outcome Q :=
  match img with
  | [] => Raise (Exn "RuntimeError" "cannot resize an image without pixels")
  | _ => Return (9 # 10)
  end.

(** Degree 2 expansion of two scores: 1, a, b, a^2, ab, b^2. *)
Definition poly_degree2 (scores : list Q) : outcome (list Q) :=
  match scores with
  | [a; b] => Return [1; a; b; a * a; a * b; b * b]%Q
  | _ => Raise (Exn "ValueError" "X has a different number of features than expected")
  end.

Definition sample_models (fused : Q) : AIEnsemblePredictor :=
  {| resnet := sample_resnet;
     vit := fun _ => Return (8 # 10);
     meta_model := fun _ => Return fused;
     poly := poly_degree2 |}.

Definition sample_world : World :=
  {| C2PA_AVAILABLE := true;
     c2pa_reader_json := sample_reader;
     json_loads := sample_loads;
     secure_filename := fun name => name;
     image_open_rgb := sample_open;
     torch_load_resnet := Return sample_resnet;
     vit_from_pretrained := Return (fun _ => Return (8 # 10));
     joblib_load_meta := Return (fun _ => Return (87 # 100));
     joblib_load_poly := Return poly_degree2 |}.

(** The same installation on a platform without the c2pa library. *)
Definition bare_world : World :=
  {| C2PA_AVAILABLE := false;
     c2pa_reader_json := sample_reader;
     json_loads := sample_loads;
     secure_filename := fun name => name;
     image_open_rgb := sample_open;
     torch_load_resnet := Return sample_resnet;
     vit_from_pretrained := Return (fun _ => Return (8 # 10));
     joblib_load_meta := Return (fun _ => Return (87 # 100));
     joblib_load_poly := Return poly_degree2 |}.

(** The float 0.58: the binary64 value 0x1.28f5c28f5c28fp-1. *)
Definition p058 : Q := 5224175567749775 # 9007199254740992.

Definition upload (name : string) : Request :=
  {| files := {[ "file" := {| upload_filename := name |} ]} |}.

(** The Manifest Records of three uploads of the sample installation. *)
Definition generated_record : gmap string pyval :=
  dict [("c2pa_present", PBool true);
        ("valid", PBool true);
        ("issuer", PStr "OpenAI");
        ("ai_generated", PBool true);
        ("raw_data", generated_store)].

Definition camera_record : gmap string pyval :=
  dict [("c2pa_present", PBool true);
        ("valid", PBool true);
        ("issuer", PStr "Leica Camera AG");
        ("ai_generated", PBool false);
        ("raw_data", camera_store)].

Definition no_manifest_record : gmap string pyval :=
  dict [("c2pa_present", PBool false);
        ("error", PStr "ManifestNotFound: no JUMBF data found")].

(* --------------------------------------------------------------------- *)
(* Three sentences of the specification, as they are written              *)
(* --------------------------------------------------------------------- *)

(** Short-circuit exactly when the record has present and
    ai_generated_signal, the whole ensemble in every other case. *)
Definition short_circuit_rule_as_stated (w : World)
    (pr : option AIEnsemblePredictor) (request : Request) (mc : Machine) : Prop :=
  forall name d r mc',
    upload_of request = Some name ->
    manifest_record w (staged_path w name) = Return d ->
    analyze_image w pr request mc = (Return (Ok r), mc') ->
    (present d && ai_generated_signal d = true ->
       short_circuited r (new_events mc mc')) /\
    (present d && ai_generated_signal d = false ->
       ran_ensemble r (new_events mc mc')).

(** Without a short-circuit the ensemble layer is settled, and a failure
    of a classifier or of the fusion marks it Error. *)
Definition ensemble_layer_rule_as_stated (w : World)
    (pr : option AIEnsemblePredictor) (request : Request) (mc : Machine) : Prop :=
  forall name d r mc',
    upload_of request = Some name ->
    manifest_record w (staged_path w name) = Return d ->
    present d = false ->
    analyze_image w pr request mc = (Return (Ok r), mc') ->
    settled (outcome_of (ai_model (layers r))) = true /\
    (forall p e,
       pr = Some p ->
       ensemble_outcome w p (staged_path w name) = Raise e ->
       success r = false /\ error r = Some (exn_str e) /\
       exists m, outcome_of (ai_model (layers r)) = Error m).

(** After a failed load the ensemble layer of a request that does not
    short-circuit is Unavailable. *)
Definition unavailable_rule_as_stated (w : World) (boot : Machine)
    (request : Request) (mc : Machine) : Prop :=
  forall e pr boot' name d r mc',
    (AIEnsemblePredictor_init w boot).1 = Raise e ->
    load_predictor w boot = (Return pr, boot') ->
    upload_of request = Some name ->
    manifest_record w (staged_path w name) = Return d ->
    present d = false ->
    analyze_image w pr request mc = (Return (Ok r), mc') ->
    outcome_of (ai_model (layers r)) = Unavailable /\
    exists verdict, final_verdict r = PStr verdict.

(* --------------------------------------------------------------------- *)
(* src/app.py, the route /api/forensic-report                             *)
(* --------------------------------------------------------------------- *)

(** [jsonify({'success': False, 'error': message})] *)
Definition failure_body (message : string) : pyval :=
  PDict (dict [("success", PBool false); ("error", PStr message)]).

(** [get_forensic_report]: the body of the request and the report
    generator of the module [forensic] are given from outside; the state
    is the list of analysis results the generator was called with. The
    answer is a body and a status code. *)
Definition get_forensic_report (get_json : outcome pyval)
    (generate_forensic_report : pyval -> outcome pyval)
  : M (list pyval) (pyval * nat) :=
  try_except
    (do analysis_result <- liftO get_json;
     if negb (truthy analysis_result)
     then ret (failure_body "No analysis data provided", 400)
     else
       modify (fun calls : list pyval => (calls ++ [analysis_result])%list) ;;
       do report <- liftO (generate_forensic_report analysis_result);
       ret (report, 200))
    (fun e => ret (failure_body (exn_str e), 500)).

(* --------------------------------------------------------------------- *)
(* The manifest format, for the records of well-formed stores             *)
(* --------------------------------------------------------------------- *)

Definition AI_SOURCE : string := "trainedAlgorithmicMedia".

(** The digital source type of a well-formed action: an object whose
    digitalSourceType, when there is one, is a string. *)
Definition action_source (action : pyval) : option string :=
  match action with
  | PDict a =>
      match a !! "digitalSourceType" with
      | None => Some ""
      | Some (PStr s) => Some s
      | Some _ => None
      end
  | _ => None
  end.

Definition well_formed_action (action : pyval) : bool :=
  match action_source action with Some _ => true | None => false end.

Definition action_is_ai (action : pyval) : bool :=
  match action_source action with
  | Some s => contains AI_SOURCE s
  | None => false
  end.

(** The actions of a well-formed assertion: an object; when its label is
    c2pa.actions, its data (when given) is an object whose actions (when
    given) are a list of well-formed actions; any other assertion has no
    actions. *)
Definition assertion_actions (assertion : pyval) : option (list pyval) :=
  match assertion with
  | PDict a =>
      if is_str "c2pa.actions" (default PNone (a !! "label"))
      then
        match default (PDict ∅) (a !! "data") with
        | PDict data =>
            match default (PList []) (data !! "actions") with
            | PList actions =>
                if forallb well_formed_action actions then Some actions else None
            | _ => None
            end
        | _ => None
        end
      else Some []
  | _ => None
  end.

Definition well_formed_assertion (assertion : pyval) : bool :=
  match assertion_actions assertion with Some _ => true | None => false end.

Definition assertion_is_ai (assertion : pyval) : bool :=
  match assertion_actions assertion with
  | Some actions => existsb action_is_ai actions
  | None => false
  end.

(** Whether a parsed JSON value is an object. *)
Definition is_object (v : pyval) : bool :=
  match v with
  | PDict _ => true
  | _ => false
  end.

(** The time a trace spends in [time.sleep], in milliseconds. *)
Definition sleep_of (e : event) : N :=
  match e with
  | EvSleep ms => ms
  | _ => 0
  end.
Definition total_sleep (t : list event) : N :=
  foldr (fun e acc => (sleep_of e + acc)%N) 0%N t.

(** The calls [predict] makes when nothing fails. *)
Definition all_ensemble_events (path : string) : list event :=
  [EvImageOpen path; EvResNet; EvViT; EvPolyTransform; EvMetaPredictProba].

(** An installation like the sample one with another reader and parser. *)
Definition lab_world (available : bool) (reader : string -> outcome string)
    (loads : string -> outcome pyval) : World :=
  {| C2PA_AVAILABLE := available;
     c2pa_reader_json := reader;
     json_loads := loads;
     secure_filename := fun name => name;
     image_open_rgb := sample_open;
     torch_load_resnet := Return sample_resnet;
     vit_from_pretrained := Return (fun _ => Return (8 # 10));
     joblib_load_meta := Return (fun _ => Return (87 # 100));
     joblib_load_poly := Return poly_degree2 |}.

(** An installation where every store names a manifest it does not hold,
    and one where every store is a JSON list. *)
Definition dangling_world : World :=
  lab_world true (fun _ => Return "{..}")
    (fun _ => Return (PDict (dict [("active_manifest", PStr "urn:uuid:gone")]))).
Definition listy_world : World :=
  lab_world true (fun _ => Return "[1, 2]")
    (fun _ => Return (PList [PInt 1; PInt 2])).

(** Two assertions: a hash, which is not looked into, and an action list
    whose second action names generated media. *)
Definition sample_assertions : list pyval :=
  [PDict (dict [("label", PStr "c2pa.hash.data"); ("data", PInt 7)]);
   PDict (dict [("label", PStr "c2pa.actions");
                ("data", PDict (dict [("actions",
                   PList [PDict (dict [("action", PStr "c2pa.opened")]);
                          PDict (dict [("digitalSourceType",
                                        PStr "x/trainedAlgorithmicMedia/y")])])]))])].

(** A machine on which the three model files are installed. *)
Definition installed : Machine :=
  {| fs := {[RESNET_PATH; META_LEARNER_PATH; POLY_TRANSFORM_PATH]};
     trace := [] |}.

(* ===================================================================== *)
(* Running the monad                                                      *)
(* ===================================================================== *)

Arguments dict : simpl never.

Ltac run :=
  cbv [bind ret raise liftO try_except try_finally modify get_state zoom
       update call emit time_sleep file_save os_path_exists];
  cbn [fs trace machine result fst snd negb].

Ltac fields :=
  cbn [with_layers with_c2pa with_synthid with_ai_model with_final_verdict
       with_confidence with_is_ai_generated with_failure initial_result
       layers c2pa synthid ai_model success filename final_verdict confidence
       is_ai_generated error getitem setitem machine result fs trace].

Lemma check_c2pa_run w fp mc :
  check_c2pa w fp mc =
  (manifest_record w fp,
   {| fs := fs mc; trace := trace mc ++ manifest_events w fp |}).
Proof.
  unfold manifest_record, manifest_events, check_c2pa, check_c2pa_try,
    read_manifest, start.
  destruct mc as [f t].
  destruct (C2PA_AVAILABLE w); run.
  2: { by rewrite app_nil_r. }
  destruct (c2pa_reader_json w fp) as [s|e]; run; [|done].
  destruct (String.eqb s ""); run; [done|].
  destruct (json_loads w s) as [md|e]; run.
  2: { by rewrite <- app_assoc. }
  destruct (py_get md "active_manifest" PNone) as [lbl|e]; run.
  2: { by rewrite <- app_assoc. }
  destruct (truthy lbl); run.
  2: { by rewrite <- app_assoc. }
  match goal with
  | |- context [obind ?a ?b] => destruct (obind a b)
  end; run; by rewrite <- app_assoc.
Qed.

Lemma obind_Return_inv {A B} (o : outcome A) (k : A -> outcome B) b :
  obind o k = Return b -> exists a, o = Return a /\ k a = Return b.
Proof. destruct o as [a|e]; simpl; [eauto | discriminate]. Qed.

Lemma manifest_record_shape w fp :
  exists d, manifest_record w fp = Return d /\ record_shape d.
Proof.
  unfold manifest_record, check_c2pa, check_c2pa_try, read_manifest, start.
  destruct (C2PA_AVAILABLE w); run; [|eexists; split; [done | constructor]].
  destruct (c2pa_reader_json w fp) as [s|e]; run;
    [|eexists; split; [done | constructor]].
  destruct (String.eqb s ""); run; [eexists; split; [done | constructor]|].
  destruct (json_loads w s) as [md|e]; run;
    [|eexists; split; [done | constructor]].
  destruct (py_get md "active_manifest" PNone) as [lbl|e]; run;
    [|eexists; split; [done | constructor]].
  destruct (truthy lbl); run; [|eexists; split; [done | constructor]].
  match goal with
  | |- context [obind ?a ?b] => destruct (obind a b) as [d|e] eqn:Hchain
  end; run; [|eexists; split; [done | constructor]].
  exists d; split; [done|].
  repeat (apply obind_Return_inv in Hchain; destruct Hchain as (? & _ & Hchain)).
  injection Hchain as <-. constructor.
Qed.

Lemma manifest_events_cases w fp :
  manifest_events w fp = [] \/
  manifest_events w fp = [EvC2paReader fp] \/
  manifest_events w fp = [EvC2paReader fp; EvJsonLoads].
Proof.
  unfold manifest_events, check_c2pa, check_c2pa_try, read_manifest, start.
  destruct (C2PA_AVAILABLE w); run; [|by left].
  destruct (c2pa_reader_json w fp) as [s|e]; run; [|by right; left].
  destruct (String.eqb s ""); run; [by right; left|].
  destruct (json_loads w s) as [md|e]; run; [|by right; right].
  destruct (py_get md "active_manifest" PNone) as [lbl|e]; run; [|by right; right].
  destruct (truthy lbl); run; [|by right; right].
  match goal with
  | |- context [obind ?a ?b] => destruct (obind a b)
  end; run; by right; right.
Qed.

Lemma manifest_events_quiet w fp :
  inference_events (manifest_events w fp) = [] /\
  forall path, removals path (manifest_events w fp) = 0.
Proof.
  destruct (manifest_events_cases w fp) as [-> | [-> | ->]]; done.
Qed.

Lemma present_shape d :
  record_shape d ->
  (present d = true /\ default PNone (d !! "available") = PNone) \/
  (present d = false /\
   d !! "valid" = None /\ d !! "issuer" = None /\ d !! "ai_generated" = None).
Proof.
  destruct 1; [right | right | right | right | left]; by repeat split.
Qed.

Lemma predict_run w p fp mc :
  fp ∈ fs mc ->
  predict w p fp mc =
  (ensemble_outcome w p fp,
   {| fs := fs mc; trace := trace mc ++ ensemble_events w p fp |}).
Proof.
  intros Hin. unfold ensemble_outcome, ensemble_events, predict.
  destruct mc as [f t]; simpl in Hin. run.
  rewrite (bool_decide_eq_true_2 _ Hin).
  rewrite (bool_decide_eq_true_2 (fp ∈ ({[fp]} : gset string))) by set_solver.
  run.
  destruct (image_open_rgb w fp) as [img|e]; run; [|done].
  destruct (resnet p img) as [a|e]; run; [|by rewrite <- app_assoc].
  destruct (vit p img) as [b|e]; run; [|by rewrite <- !app_assoc].
  destruct (poly p [a; b]) as [feats|e]; run; [|by rewrite <- !app_assoc].
  destruct (meta_model p feats) as [prob|e]; run; [|by rewrite <- !app_assoc].
  destruct (label_and_confidence prob) as [label conf]; run.
  by rewrite <- !app_assoc.
Qed.

Lemma ensemble_undecodable w p fp e :
  image_open_rgb w fp = Raise e ->
  ensemble_outcome w p fp =
    Return ("Error", PStr ("Invalid image file: " +:+ exn_str e)) /\
  ensemble_events w p fp = [EvImageOpen fp].
Proof.
  intros Hopen. unfold ensemble_outcome, ensemble_events, predict. run.
  rewrite (bool_decide_eq_true_2 (fp ∈ ({[fp]} : gset string))) by set_solver.
  run. rewrite Hopen. by run.
Qed.

Lemma ensemble_fused w p fp img a b feats prob :
  image_open_rgb w fp = Return img ->
  resnet p img = Return a ->
  vit p img = Return b ->
  poly p [a; b] = Return feats ->
  meta_model p feats = Return prob ->
  ensemble_outcome w p fp =
    Return ((label_and_confidence prob).1, PFloat (label_and_confidence prob).2) /\
  ensemble_events w p fp =
    [EvImageOpen fp; EvResNet; EvViT; EvPolyTransform; EvMetaPredictProba].
Proof.
  intros Hopen Ha Hb Hfeats Hprob.
  unfold ensemble_outcome, ensemble_events, predict. run.
  rewrite (bool_decide_eq_true_2 (fp ∈ ({[fp]} : gset string))) by set_solver.
  run. rewrite Hopen. run. rewrite Ha. run. rewrite Hb. run.
  rewrite Hfeats. run. rewrite Hprob. run.
  by destruct (label_and_confidence prob).
Qed.

Lemma ensemble_cases w p fp :
  (exists e, image_open_rgb w fp = Raise e /\
     ensemble_outcome w p fp =
       Return ("Error", PStr ("Invalid image file: " +:+ exn_str e)) /\
     ensemble_events w p fp = [EvImageOpen fp]) \/
  (exists prob,
     ensemble_outcome w p fp =
       Return ((label_and_confidence prob).1, PFloat (label_and_confidence prob).2) /\
     ensemble_events w p fp =
       [EvImageOpen fp; EvResNet; EvViT; EvPolyTransform; EvMetaPredictProba]) \/
  (exists e evs,
     ensemble_outcome w p fp = Raise e /\
     ensemble_events w p fp = EvImageOpen fp :: evs /\
     removals fp evs = 0).
Proof.
  destruct (image_open_rgb w fp) as [img|e] eqn:Hopen.
  2: { left. exists e. split; [done|]. by apply ensemble_undecodable. }
  right.
  unfold ensemble_outcome, ensemble_events, predict. run.
  rewrite (bool_decide_eq_true_2 (fp ∈ ({[fp]} : gset string))) by set_solver.
  run. rewrite Hopen. run.
  destruct (resnet p img) as [a|e]; run; [|right; by eexists _, _].
  destruct (vit p img) as [b|e]; run; [|right; by eexists _, _].
  destruct (poly p [a; b]) as [feats|e]; run; [|right; by eexists _, _].
  destruct (meta_model p feats) as [prob|e]; run; [|right; by eexists _, _].
  left. exists prob. by destruct (label_and_confidence prob).
Qed.

Lemma cleanup_run fp mc :
  fp ∈ fs mc ->
  cleanup fp mc =
  (Return tt, {| fs := fs mc ∖ {[fp]}; trace := trace mc ++ [EvRemove fp] |}).
Proof.
  intros Hin. unfold cleanup, os_remove. run.
  rewrite (bool_decide_eq_true_2 _ Hin). run.
  by rewrite (bool_decide_eq_true_2 _ Hin).
Qed.

(** The short-circuit path, as one equation. *)
Lemma analyze_staged_short w pr name fp mc d :
  fp ∈ fs mc ->
  manifest_record w fp = Return d ->
  present d = true ->
  analyze_staged w pr name fp mc =
  (Return
     {| success := true;
        filename := name;
        layers :=
          {| c2pa := PDict (<["status" := PStr "verified"]> (mark_unavailable d));
             synthid := skipped "C2PA verification successful";
             ai_model := skipped "C2PA verification successful" |};
        final_verdict := PStr "AI Generated (C2PA Verified)";
        confidence := PFloat 100;
        is_ai_generated := true;
        error := None |},
   {| fs := fs mc ∖ {[fp]};
      trace := trace mc ++ EvSleep 1500 :: manifest_events w fp ++
               [EvSleep 500; EvSleep 500; EvRemove fp] |}).
Proof.
  intros Hin Hd Hp. unfold analyze_staged, analyze_try, c2pa_result_get. run.
  rewrite check_c2pa_run, Hd. run; fields.
  unfold mark_unavailable, present in *.
  destruct (py_eq_False (default PNone (d !! "available"))); run; fields;
    rewrite ?lookup_insert_ne by done; rewrite Hp; run; fields;
    rewrite cleanup_run by done; run; fields;
    by rewrite <- !app_assoc.
Qed.

(** The ensemble path without a loaded predictor. *)
Lemma analyze_staged_no_model w name fp mc d :
  fp ∈ fs mc ->
  manifest_record w fp = Return d ->
  present d = false ->
  analyze_staged w None name fp mc =
  (Return
     {| success := true;
        filename := name;
        layers :=
          {| c2pa := PDict (mark_unavailable d);
             synthid := skipped "Not implemented";
             ai_model := PDict (dict [("status", PStr "error");
                                      ("error", PStr "AI model not loaded")]) |};
        final_verdict := PStr "Unknown (Model unavailable)";
        confidence := PInt 0;
        is_ai_generated := false;
        error := None |},
   {| fs := fs mc ∖ {[fp]};
      trace := trace mc ++ EvSleep 1500 :: manifest_events w fp ++
               [EvSleep 1000; EvSleep 2000; EvRemove fp] |}).
Proof.
  intros Hin Hd Hp. unfold analyze_staged, analyze_try, c2pa_result_get. run.
  rewrite check_c2pa_run, Hd. run; fields.
  unfold mark_unavailable, present in *.
  destruct (py_eq_False (default PNone (d !! "available"))); run; fields;
    rewrite ?lookup_insert_ne by done; rewrite Hp; run; fields;
    rewrite cleanup_run by done; run; fields;
    by rewrite <- !app_assoc.
Qed.

(** The ensemble path when [predict] returns. *)
Lemma analyze_staged_complete w p name fp mc d label conf cp :
  fp ∈ fs mc ->
  manifest_record w fp = Return d ->
  present d = false ->
  ensemble_outcome w p fp = Return (label, conf) ->
  py_mul_int conf 100 = Return cp ->
  analyze_staged w (Some p) name fp mc =
  (Return
     {| success := true;
        filename := name;
        layers :=
          {| c2pa := PDict (mark_unavailable d);
             synthid := skipped "Not implemented";
             ai_model := PDict (dict [("status", PStr "complete");
                                      ("label", PStr label);
                                      ("confidence", cp)]) |};
        final_verdict := PStr label;
        confidence := cp;
        is_ai_generated := String.eqb label "AI Image";
        error := None |},
   {| fs := fs mc ∖ {[fp]};
      trace := trace mc ++ EvSleep 1500 :: manifest_events w fp ++
               [EvSleep 1000; EvSleep 2000] ++ ensemble_events w p fp ++
               [EvRemove fp] |}).
Proof.
  intros Hin Hd Hp Hens Hmul.
  unfold analyze_staged, analyze_try, c2pa_result_get. run.
  rewrite check_c2pa_run, Hd. run; fields.
  unfold mark_unavailable, present in *.
  destruct (py_eq_False (default PNone (d !! "available"))); run; fields;
    rewrite ?lookup_insert_ne by done; rewrite Hp; run; fields;
    rewrite predict_run by done; rewrite Hens; run; fields;
    rewrite Hmul; run; fields;
    rewrite cleanup_run by done; run; fields;
    by rewrite <- !app_assoc.
Qed.

(** The ensemble path when a classifier or the fusion raises: the
    handler records the failure, the layer is never assigned. *)
Lemma analyze_staged_raise w p name fp mc d e :
  fp ∈ fs mc ->
  manifest_record w fp = Return d ->
  present d = false ->
  ensemble_outcome w p fp = Raise e ->
  analyze_staged w (Some p) name fp mc =
  (Return
     {| success := false;
        filename := name;
        layers :=
          {| c2pa := PDict (mark_unavailable d);
             synthid := skipped "Not implemented";
             ai_model := PNone |};
        final_verdict := PNone;
        confidence := PInt 0;
        is_ai_generated := false;
        error := Some (exn_str e) |},
   {| fs := fs mc ∖ {[fp]};
      trace := trace mc ++ EvSleep 1500 :: manifest_events w fp ++
               [EvSleep 1000; EvSleep 2000] ++ ensemble_events w p fp ++
               [EvRemove fp] |}).
Proof.
  intros Hin Hd Hp Hens.
  unfold analyze_staged, analyze_try, c2pa_result_get. run.
  rewrite check_c2pa_run, Hd. run; fields.
  unfold mark_unavailable, present in *.
  destruct (py_eq_False (default PNone (d !! "available"))); run; fields;
    rewrite ?lookup_insert_ne by done; rewrite Hp; run; fields;
    rewrite predict_run by done; rewrite Hens; run; fields;
    rewrite cleanup_run by done; run; fields;
    by rewrite <- !app_assoc.
Qed.

(** The route on an accepted and on a rejected request. *)
Lemma analyze_image_accepted w pr request upload mc :
  upload_of request = Some upload ->
  analyze_image w pr request mc =
  match analyze_staged w pr (secure_filename w upload) (staged_path w upload)
          {| fs := {[staged_path w upload]} ∪ fs mc;
             trace := trace mc ++ [EvSave (staged_path w upload)] |} with
  | (Return r, mc') => (Return (Ok r), mc')
  | (Raise e, mc') => (Raise e, mc')
  end.
Proof.
  unfold upload_of, analyze_image, staged_path.
  destruct (files request !! "file") as [file|]; [|done].
  destruct (String.eqb (upload_filename file) ""); [done|].
  destruct (allowed_file (upload_filename file)); [|done].
  intros [= <-]. run.
  by destruct (analyze_staged _ _ _ _ _) as [[r|e] mc'].
Qed.

Lemma analyze_image_rejected w pr request mc :
  upload_of request = None ->
  exists msg, analyze_image w pr request mc = (Return (BadRequest msg), mc).
Proof.
  unfold upload_of, analyze_image.
  destruct (files request !! "file") as [file|]; [|by eexists].
  destruct (String.eqb (upload_filename file) ""); [by eexists|].
  destruct (allowed_file (upload_filename file)); [done|by eexists].
Qed.

Lemma new_events_app (mc mc' : Machine) (evs : list event) :
  trace mc' = (trace mc ++ evs)%list -> new_events mc mc' = evs.
Proof. unfold new_events. intros ->. by rewrite drop_app_length. Qed.

Lemma py_mul_int_ensemble w p fp label conf :
  ensemble_outcome w p fp = Return (label, conf) ->
  exists cp, py_mul_int conf 100 = Return cp.
Proof.
  intros Hens.
  destruct (ensemble_cases w p fp)
    as [(e & _ & He & _) | [(prob & He & _) | (e & evs & He & _)]];
    rewrite He in Hens; [| |discriminate]; injection Hens as <- <-; by eexists.
Qed.

(** Every accepted request returns, along one of the four paths, and the
    machine it leaves behind is known. *)
Lemma analyze_image_path w pr request name mc d :
  upload_of request = Some name ->
  manifest_record w (staged_path w name) = Return d ->
  exists r evs,
    analyze_image w pr request mc =
      (Return (Ok r),
       {| fs := ({[staged_path w name]} ∪ fs mc) ∖ {[staged_path w name]};
          trace := trace mc ++
                   EvSave (staged_path w name) :: EvSleep 1500 ::
                   manifest_events w (staged_path w name) ++ evs ++
                   [EvRemove (staged_path w name)] |}) /\
    request_path w pr name d r evs.
Proof.
  intros Hup Hd. rewrite (analyze_image_accepted _ _ _ _ _ Hup).
  set (fp := staged_path w name) in *.
  set (mc1 := {| fs := {[fp]} ∪ fs mc; trace := trace mc ++ [EvSave fp] |}).
  assert (Hin : fp ∈ fs mc1) by (simpl; set_solver).
  destruct (present d) eqn:Hp.
  - rewrite (analyze_staged_short _ _ _ _ _ _ Hin Hd Hp).
    eexists _, _. split; [|by apply path_short].
    simpl. by rewrite <- app_assoc.
  - destruct pr as [p|].
    + destruct (ensemble_outcome w p fp) as [[label conf]|e] eqn:Hens.
      * destruct (py_mul_int_ensemble _ _ _ _ _ Hens) as [cp Hcp].
        rewrite (analyze_staged_complete _ _ _ _ _ _ _ _ _ Hin Hd Hp Hens Hcp).
        eexists _, _. split; [|by eapply path_complete].
        simpl. by rewrite <- !app_assoc.
      * rewrite (analyze_staged_raise _ _ _ _ _ _ _ Hin Hd Hp Hens).
        eexists _, _. split; [|by eapply path_raise].
        simpl. by rewrite <- !app_assoc.
    + rewrite (analyze_staged_no_model _ _ _ _ _ Hin Hd Hp).
      eexists _, _. split; [|by apply path_no_model].
      simpl. by rewrite <- app_assoc.
Qed.

Lemma inference_events_request w fp (evs : list event) :
  inference_events
    (EvSave fp :: EvSleep 1500 :: manifest_events w fp ++ evs ++ [EvRemove fp])
  = inference_events evs.
Proof.
  unfold inference_events. cbn [List.filter is_inference].
  rewrite !List.filter_app.
  destruct (manifest_events_quiet w fp) as [Hq _].
  unfold inference_events in Hq. rewrite Hq. cbn. by rewrite app_nil_r.
Qed.

Lemma removals_request w fp (evs : list event) :
  removals fp
    (EvSave fp :: EvSleep 1500 :: manifest_events w fp ++ evs ++ [EvRemove fp])
  = S (removals fp evs).
Proof.
  unfold removals. cbn [List.filter is_remove].
  rewrite !List.filter_app, !length_app.
  destruct (manifest_events_quiet w fp) as [_ Hq].
  unfold removals in Hq. rewrite Hq. cbn. rewrite String.eqb_refl. cbn. lia.
Qed.

Lemma ensemble_events_no_removal w p fp : removals fp (ensemble_events w p fp) = 0.
Proof.
  destruct (ensemble_cases w p fp)
    as [(e & _ & _ & ->) | [(prob & _ & ->) | (e & evs & _ & -> & Hevs)]];
    done.
Qed.

Lemma request_path_no_removal w pr name d r evs :
  request_path w pr name d r evs -> removals (staged_path w name) evs = 0.
Proof.
  destruct 1; try done.
  all: unfold removals; rewrite List.filter_app, length_app;
    fold (removals (staged_path w name) (ensemble_events w p (staged_path w name)));
    by rewrite ensemble_events_no_removal.
Qed.

(* ===================================================================== *)
(* The claims                                                             *)
(* ===================================================================== *)

(** C1, as amended. The orchestrator short-circuits exactly when the
    Manifest Record has present=true, whatever ai_generated_signal says:
    confidence is 100, is_ai_generated is true, the verdict is the
    provenance label, the watermark and ensemble layers are skipped and no
    classifier or fusion call is made. In every other case the watermark
    layer is skipped as not implemented, and when the predictor is loaded,
    the image decodes and nothing raises, the calls are classifier A,
    classifier B, then the two fusion steps, in that order. *)
Theorem short_circuit_iff_present w pr request name mc d :
  upload_of request = Some name ->
  manifest_record w (staged_path w name) = Return d ->
  exists r mc',
    analyze_image w pr request mc = (Return (Ok r), mc') /\
    (short_circuited r (new_events mc mc') <-> present d = true) /\
    (present d = false ->
       outcome_of (synthid (layers r)) = Skipped (PStr "Not implemented") /\
       forall p img a b feats prob,
         pr = Some p ->
         image_open_rgb w (staged_path w name) = Return img ->
         resnet p img = Return a ->
         vit p img = Return b ->
         poly p [a; b] = Return feats ->
         meta_model p feats = Return prob ->
         ran_ensemble r (new_events mc mc')).
Proof.
  intros Hup Hd.
  destruct (analyze_image_path w pr request name mc d Hup Hd)
    as (r & evs & Hrun & Hpath).
  eexists r, _. split; [exact Hrun|].
  erewrite new_events_app by (cbn [trace]; reflexivity).
  unfold short_circuited, ran_ensemble. rewrite inference_events_request.
  destruct Hpath as [Hp | Hp -> | p label conf cp Hp -> Hens Hcp | p e Hp -> Hens];
    cbn [layers synthid ai_model confidence is_ai_generated final_verdict].
  - split; [|intros Hf; congruence]. split; [done|]. intros _. by repeat split.
  - split; [split; [intros (_ & _ & _ & Hs & _); discriminate | congruence]|].
    intros _. split; [done|]. intros; discriminate.
  - split; [split; [intros (_ & _ & _ & Hs & _); discriminate | congruence]|].
    intros _. split; [done|].
    intros p' img a b feats prob [= <-] Hopen Ha Hb Hfeats Hprob.
    destruct (ensemble_fused w p _ img a b feats prob Hopen Ha Hb Hfeats Hprob)
      as [_ ->].
    by split.
  - split; [split; [intros (_ & _ & _ & Hs & _); discriminate | congruence]|].
    intros _. split; [done|].
    intros p' img a b feats prob [= <-] Hopen Ha Hb Hfeats Hprob.
    destruct (ensemble_fused w p _ img a b feats prob Hopen Ha Hb Hfeats Hprob)
      as [Hret _].
    congruence.
Qed.

Lemma camera_manifest_record :
  manifest_record sample_world (staged_path sample_world "camera.jpg")
  = Return camera_record.
Proof. vm_compute. reflexivity. Qed.

Lemma photo_manifest_record name :
  sample_reader (staged_path sample_world name)
    = Raise (Exn "C2paError" "ManifestNotFound: no JUMBF data found") ->
  manifest_record sample_world (staged_path sample_world name)
  = Return no_manifest_record.
Proof.
  intros Hr. unfold manifest_record, check_c2pa, check_c2pa_try. run.
  cbn [sample_world C2PA_AVAILABLE c2pa_reader_json]. by rewrite Hr.
Qed.

Lemma short_circuit_iff_present_witness :
  upload_of (upload "photo.png") = Some "photo.png" /\
  manifest_record sample_world (staged_path sample_world "photo.png")
    = Return no_manifest_record /\
  present no_manifest_record = false /\
  exists r mc',
    analyze_image sample_world (Some (sample_models (87 # 100)))
      (upload "photo.png") start = (Return (Ok r), mc') /\
    ran_ensemble r (new_events start mc').
Proof.
  split; [reflexivity|]. split; [by apply photo_manifest_record|].
  split; [reflexivity|].
  destruct (short_circuit_iff_present sample_world
              (Some (sample_models (87 # 100))) (upload "photo.png")
              "photo.png" start no_manifest_record eq_refl
              (photo_manifest_record "photo.png" eq_refl))
    as (r & mc' & Hrun & _ & Hens).
  exists r, mc'. split; [exact Hrun|].
  destruct (Hens eq_refl) as [_ Hcalls].
  by eapply Hcalls.
Defined.

(** C1, as stated, fails on a photo signed by a camera: the record has
    present=true and ai_generated_signal=false, and the request is
    short-circuited all the same. *)
Lemma short_circuit_rule_camera_counterexample :
  ~ short_circuit_rule_as_stated sample_world
      (Some (sample_models (87 # 100))) (upload "camera.jpg") start.
Proof.
  intros Hrule.
  destruct (analyze_image_path sample_world (Some (sample_models (87 # 100)))
              (upload "camera.jpg") "camera.jpg" start camera_record
              eq_refl camera_manifest_record)
    as (r & evs & Hrun & Hpath).
  destruct (Hrule "camera.jpg" camera_record _ _ eq_refl
              camera_manifest_record Hrun) as [_ Hens].
  destruct (Hens eq_refl) as [Hsynthid _].
  destruct Hpath; discriminate.
Qed.

(** C2, as amended. For every request that is not short-circuited: when
    the predictor is not loaded the ensemble layer is Error with the
    message 'AI model not loaded' and success stays true; when [predict]
    returns, the layer is Complete with the label and the confidence and
    success stays true; when a classifier or the fusion raises, success is
    false and the message of the exception is recorded, and the ensemble
    layer is left as it was created, unset (Pending), not marked Error. *)
Theorem ensemble_layer_outcomes w pr request name mc d :
  upload_of request = Some name ->
  manifest_record w (staged_path w name) = Return d ->
  present d = false ->
  exists r mc',
    analyze_image w pr request mc = (Return (Ok r), mc') /\
    (pr = None ->
       success r = true /\ error r = None /\
       outcome_of (ai_model (layers r)) = Error (PStr "AI model not loaded")) /\
    (forall p label conf,
       pr = Some p ->
       ensemble_outcome w p (staged_path w name) = Return (label, conf) ->
       success r = true /\ error r = None /\
       exists cp, py_mul_int conf 100 = Return cp /\
                  outcome_of (ai_model (layers r)) = Complete (PStr label) cp) /\
    (forall p e,
       pr = Some p ->
       ensemble_outcome w p (staged_path w name) = Raise e ->
       success r = false /\ error r = Some (exn_str e) /\
       ai_model (layers r) = PNone /\
       outcome_of (ai_model (layers r)) = Pending).
Proof.
  intros Hup Hd Hp.
  destruct (analyze_image_path w pr request name mc d Hup Hd)
    as (r & evs & Hrun & Hpath).
  eexists r, _. split; [exact Hrun|].
  destruct Hpath as [Hp' | _ -> | p label conf cp _ -> Hens Hcp | p e _ -> Hens];
    cbn [layers ai_model success error].
  - congruence.
  - split; [done|]. split; intros; discriminate.
  - split; [discriminate|]. split.
    + intros p' label' conf' [= <-] Hens'. rewrite Hens in Hens'.
      injection Hens' as <- <-. repeat split. by exists cp.
    + intros p' e [= <-] Hens'. congruence.
  - split; [discriminate|]. split.
    + intros p' label' conf' [= <-] Hens'. congruence.
    + intros p' e' [= <-] Hens'. rewrite Hens in Hens'.
      by injection Hens' as <-.
Qed.

Lemma blank_ensemble_outcome :
  ensemble_outcome sample_world (sample_models (87 # 100))
    (staged_path sample_world "blank.png")
  = Raise (Exn "RuntimeError" "cannot resize an image without pixels").
Proof. vm_compute. reflexivity. Qed.

Lemma ensemble_layer_outcomes_witness :
  upload_of (upload "blank.png") = Some "blank.png" /\
  manifest_record sample_world (staged_path sample_world "blank.png")
    = Return no_manifest_record /\
  present no_manifest_record = false /\
  exists r mc',
    analyze_image sample_world (Some (sample_models (87 # 100)))
      (upload "blank.png") start = (Return (Ok r), mc') /\
    success r = false /\
    error r = Some "cannot resize an image without pixels" /\
    ai_model (layers r) = PNone /\
    outcome_of (ai_model (layers r)) = Pending.
Proof.
  split; [reflexivity|]. split; [by apply photo_manifest_record|].
  split; [reflexivity|].
  destruct (ensemble_layer_outcomes sample_world
              (Some (sample_models (87 # 100))) (upload "blank.png")
              "blank.png" start no_manifest_record eq_refl
              (photo_manifest_record "blank.png" eq_refl) eq_refl)
    as (r & mc' & Hrun & _ & _ & Hraise).
  exists r, mc'. split; [exact Hrun|].
  exact (Hraise _ _ eq_refl blank_ensemble_outcome).
Defined.

(** C2, as stated, fails when a classifier raises: the first classifier
    rejects the decoded image, the handler sets success to false, and the
    ensemble layer of the returned result is still unset. *)
Lemma ensemble_layer_rule_blank_counterexample :
  ~ ensemble_layer_rule_as_stated sample_world
      (Some (sample_models (87 # 100))) (upload "blank.png") start.
Proof.
  intros Hrule.
  destruct (analyze_image_path sample_world (Some (sample_models (87 # 100)))
              (upload "blank.png") "blank.png" start no_manifest_record
              eq_refl (photo_manifest_record "blank.png" eq_refl))
    as (r & evs & Hrun & Hpath).
  destruct (Hrule "blank.png" no_manifest_record _ _ eq_refl
              (photo_manifest_record "blank.png" eq_refl) eq_refl Hrun)
    as [Hsettled _].
  destruct Hpath as [Hp | _ Hpr | p label conf cp _ Hpr Hens _ | p e _ _ _];
    [discriminate Hp | discriminate Hpr | | discriminate Hsettled].
  injection Hpr as <-. rewrite blank_ensemble_outcome in Hens. discriminate.
Qed.

Lemma failed_init_loads_none w boot e :
  (AIEnsemblePredictor_init w boot).1 = Raise e ->
  exists boot', load_predictor w boot = (Return None, boot').
Proof.
  unfold load_predictor. run.
  destruct (AIEnsemblePredictor_init w boot) as [[p|e'] boot']; simpl;
    [discriminate | by eexists].
Qed.

(** C3, as amended. When the constructor of the predictor raised at
    startup, the module keeps [predictor = None], and every later request
    still returns with success=true: a request that is not short-circuited
    gets the ensemble layer Error with the message 'AI model not loaded'
    (status 'error', not 'unavailable') and the verdict
    'Unknown (Model unavailable)'; a request with a manifest is
    short-circuited as usual; and the provenance layer carries the
    Manifest Record. *)
Theorem failed_load_marks_error w boot e :
  (AIEnsemblePredictor_init w boot).1 = Raise e ->
  exists pr boot',
    load_predictor w boot = (Return pr, boot') /\ pr = None /\
    forall request name mc d,
      upload_of request = Some name ->
      manifest_record w (staged_path w name) = Return d ->
      exists r mc',
        analyze_image w pr request mc = (Return (Ok r), mc') /\
        success r = true /\ error r = None /\
        (present d = false ->
           outcome_of (ai_model (layers r)) = Error (PStr "AI model not loaded") /\
           final_verdict r = PStr "Unknown (Model unavailable)") /\
        (present d = true -> short_circuited r (new_events mc mc')) /\
        (forall key, key <> "status" ->
           getitem key (c2pa (layers r)) = default PNone (d !! key)).
Proof.
  intros Hinit. destruct (failed_init_loads_none w boot e Hinit) as [boot' Hload].
  exists None, boot'. split; [exact Hload|]. split; [done|].
  intros request name mc d Hup Hd.
  destruct (analyze_image_path w None request name mc d Hup Hd)
    as (r & evs & Hrun & Hpath).
  eexists r, _. split; [exact Hrun|].
  erewrite new_events_app by (cbn [trace]; reflexivity).
  unfold short_circuited. rewrite inference_events_request.
  assert (Hkeys : forall key v, key <> "status" ->
            default PNone (mark_unavailable d !! key) = default PNone (d !! key)
            /\ default PNone (<["status" := v]> (mark_unavailable d) !! key)
               = default PNone (d !! key)).
  { intros key v Hkey. unfold mark_unavailable.
    destruct (py_eq_False _); by rewrite ?lookup_insert_ne. }
  destruct Hpath as [Hp | Hp _ | p label conf cp _ Hpr | p e' _ Hpr];
    try discriminate Hpr;
    cbn [layers synthid ai_model c2pa confidence is_ai_generated final_verdict
         success error getitem].
  - repeat split; try done; try congruence. intros key Hkey.
    by apply (Hkeys key (PStr "verified")).
  - repeat split; try done; try congruence. intros key Hkey.
    by apply (Hkeys key PNone).
Qed.

Lemma failed_load_marks_error_witness :
  (AIEnsemblePredictor_init sample_world start).1
    = Raise (FileNotFoundError ("Could not find ResNet model at " +:+ RESNET_PATH)) /\
  exists pr boot',
    load_predictor sample_world start = (Return pr, boot') /\ pr = None /\
    forall request name mc d,
      upload_of request = Some name ->
      manifest_record sample_world (staged_path sample_world name) = Return d ->
      exists r mc',
        analyze_image sample_world pr request mc = (Return (Ok r), mc') /\
        success r = true /\ error r = None /\
        (present d = false ->
           outcome_of (ai_model (layers r)) = Error (PStr "AI model not loaded") /\
           final_verdict r = PStr "Unknown (Model unavailable)") /\
        (present d = true -> short_circuited r (new_events mc mc')) /\
        (forall key, key <> "status" ->
           getitem key (c2pa (layers r)) = default PNone (d !! key)).
Proof.
  split; [reflexivity|].
  exact (failed_load_marks_error sample_world start _ eq_refl).
Defined.

(** C3, as stated, fails on an installation without the model files: the
    constructor raises, [predictor] stays [None], and the ensemble layer of
    an upload without a manifest has the status 'error', which is the
    Error outcome, not Unavailable. *)
Lemma unavailable_rule_photo_counterexample :
  ~ unavailable_rule_as_stated sample_world start (upload "photo.png") start.
Proof.
  intros Hrule.
  destruct (analyze_image_path sample_world None (upload "photo.png")
              "photo.png" start no_manifest_record
              eq_refl (photo_manifest_record "photo.png" eq_refl))
    as (r & evs & Hrun & Hpath).
  destruct (Hrule (FileNotFoundError ("Could not find ResNet model at " +:+ RESNET_PATH))
              None start "photo.png" no_manifest_record _ _
              eq_refl eq_refl eq_refl
              (photo_manifest_record "photo.png" eq_refl) eq_refl Hrun)
    as [Hlayer _].
  destruct Hpath as [Hp | _ _ | p label conf cp _ Hpr | p e _ Hpr];
    discriminate.
Qed.

Section Rounding.

Local Open Scope Q_scope.

Lemma rne_comp q q' : q == q' -> rne q = rne q'.
Proof.
  intros H. unfold rne. rewrite (Qfloor_comp _ _ H).
  assert (Hc : Qcompare (q - inject_Z (Qfloor q')) (1 # 2)
               = Qcompare (q' - inject_Z (Qfloor q')) (1 # 2))
    by (apply Qcompare_comp; [rewrite H|]; reflexivity).
  rewrite Hc. reflexivity.
Qed.

Lemma rne_Z z : rne (inject_Z z) = z.
Proof.
  unfold rne. rewrite Qfloor_Z.
  assert (Hz : inject_Z z - inject_Z z == 0) by ring.
  rewrite (Qcompare_comp _ _ Hz _ _ (Qeq_refl (1 # 2))). reflexivity.
Qed.

Lemma rne_bounds q : (Qfloor q <= rne q <= Qfloor q + 1)%Z.
Proof.
  unfold rne. destruct (Qcompare _ _); [destruct (Z.even _)| |]; lia.
Qed.

Lemma rne_mono q q' : q <= q' -> (rne q <= rne q')%Z.
Proof.
  intros H. pose proof (Qfloor_resp_le _ _ H) as Hf.
  destruct (Z.eq_dec (Qfloor q) (Qfloor q')) as [Heq | Hne].
  - unfold rne. rewrite <- Heq.
    destruct (Qcompare_spec (q - inject_Z (Qfloor q)) (1 # 2)) as [H1 | H1 | H1];
      destruct (Qcompare_spec (q' - inject_Z (Qfloor q)) (1 # 2)) as [H2 | H2 | H2];
      destruct (Z.even (Qfloor q)); try lia; exfalso; lra.
  - pose proof (rne_bounds q). pose proof (rne_bounds q'). lia.
Qed.

Lemma pow2_pos k : 0 < 2 ^ k.
Proof. apply Qpower_0_lt. reflexivity. Qed.

Lemma pow2_Z k : (0 <= k)%Z -> 2 ^ k == inject_Z (2 ^ k).
Proof. intros Hk. symmetry. apply (Zpower_Qpower 2 k Hk). Qed.

Lemma pow2_add a b : 2 ^ (a + b) == 2 ^ a * 2 ^ b.
Proof. apply Qpower_plus. discriminate. Qed.

Lemma pow2_le a b : (a <= b)%Z -> 2 ^ a <= 2 ^ b.
Proof. intros H. apply Qpower_le_compat_l; [exact H | discriminate]. Qed.

Lemma pow2_lt_inv a b : 2 ^ a < 2 ^ b -> (a < b)%Z.
Proof. intros H. apply (Qpower_lt_compat_l_inv 2); [exact H | reflexivity]. Qed.

Lemma Qmake_mult_den n d : (n # d) * inject_Z (Zpos d) == inject_Z n.
Proof. unfold Qeq. simpl. lia. Qed.

Lemma ilog2_spec x : 0 < x -> 2 ^ ilog2 x <= x /\ x < 2 ^ (ilog2 x + 1).
Proof.
  intros Hx. unfold ilog2. destruct x as [n d]. cbn [Qnum Qden].
  assert (Hn : (0 < n)%Z) by (unfold Qlt in Hx; simpl in Hx; lia).
  set (a := Z.log2 n). set (b := Z.log2 (Zpos d)).
  assert (Ha : (0 <= a)%Z) by apply Z.log2_nonneg.
  assert (Hb : (0 <= b)%Z) by apply Z.log2_nonneg.
  destruct (Z.log2_spec n Hn) as [Ha1 Ha2]. fold a in Ha1, Ha2.
  destruct (Z.log2_spec (Zpos d) ltac:(lia)) as [Hb1 Hb2]. fold b in Hb1, Hb2.
  assert (Hxd : (n # d) * inject_Z (Zpos d) == inject_Z n) by apply Qmake_mult_den.
  (* upper bound: x < 2 ^ (a - b + 1) *)
  assert (Hup : n # d < 2 ^ (a - b + 1)).
  { assert (Hpow : 2 ^ (a - b + 1) * 2 ^ b == inject_Z (2 ^ (a + 1))).
    { rewrite <- pow2_add. replace (a - b + 1 + b)%Z with (a + 1)%Z by lia.
      apply pow2_Z. lia. }
    apply (Qmult_lt_r _ _ (2 ^ b)); [apply pow2_pos|].
    rewrite Hpow.
    apply Qle_lt_trans with ((n # d) * inject_Z (Zpos d)).
    - apply Qmult_le_l; [exact Hx|]. rewrite (pow2_Z b Hb).
      rewrite <- Zle_Qle. exact Hb1.
    - rewrite Hxd. rewrite <- Zlt_Qlt. replace (a + 1)%Z with (Z.succ a) by lia.
      exact Ha2. }
  (* lower bound: 2 ^ (a - b - 1) <= x *)
  assert (Hlow : 2 ^ (a - b - 1) <= n # d).
  { assert (Hpow : 2 ^ (a - b - 1) * 2 ^ (b + 1) == inject_Z (2 ^ a)).
    { rewrite <- pow2_add. replace (a - b - 1 + (b + 1))%Z with a by lia.
      apply pow2_Z. lia. }
    apply (Qmult_le_r _ _ (2 ^ (b + 1))); [apply pow2_pos|].
    rewrite Hpow.
    apply Qle_trans with ((n # d) * inject_Z (Zpos d)).
    - rewrite Hxd. rewrite <- Zle_Qle. exact Ha1.
    - apply Qmult_le_l; [exact Hx|]. rewrite (pow2_Z (b + 1)) by lia.
      rewrite <- Zle_Qle. replace (b + 1)%Z with (Z.succ b) by lia. lia. }
  destruct (Qle_bool (2 ^ (a - b)) (n # d)) eqn:Htest.
  - apply Qle_bool_iff in Htest. split; [exact Htest | exact Hup].
  - split; [exact Hlow|].
    replace (a - b - 1 + 1)%Z with (a - b)%Z by lia.
    apply Qnot_le_lt. intros Hle. apply Qle_bool_iff in Hle. congruence.
Qed.

Lemma ilog2_mono x y : 0 < x -> x <= y -> (ilog2 x <= ilog2 y)%Z.
Proof.
  intros Hx Hxy.
  destruct (ilog2_spec x Hx) as [Hx1 _].
  destruct (ilog2_spec y (Qlt_le_trans _ _ _ Hx Hxy)) as [_ Hy2].
  assert (Hlt : 2 ^ ilog2 x < 2 ^ (ilog2 y + 1)).
  { apply Qle_lt_trans with x; [exact Hx1|].
    apply Qle_lt_trans with y; [exact Hxy | exact Hy2]. }
  apply pow2_lt_inv in Hlt. lia.
Qed.

Lemma ilog2_comp x y : 0 < x -> x == y -> ilog2 x = ilog2 y.
Proof.
  intros Hx Hxy.
  assert (Hy : 0 < y) by (rewrite <- Hxy; exact Hx).
  pose proof (ilog2_mono x y Hx ltac:(rewrite Hxy; apply Qle_refl)).
  pose proof (ilog2_mono y x Hy ltac:(rewrite Hxy; apply Qle_refl)).
  lia.
Qed.

Lemma scaled_nonneg x k : 0 <= x -> 0 <= x * 2 ^ k.
Proof.
  intros Hx. apply Qmult_le_0_compat; [exact Hx|].
  apply Qlt_le_weak, pow2_pos.
Qed.

Lemma rne_nonneg q : 0 <= q -> (0 <= rne q)%Z.
Proof.
  intros Hq. pose proof (rne_mono 0 q Hq) as H.
  change 0 with (inject_Z 0) in H. rewrite rne_Z in H. exact H.
Qed.

Lemma round64_pos_nonneg x : 0 <= x -> 0 <= round64_pos x.
Proof.
  intros Hx. unfold round64_pos. apply Qmult_le_0_compat.
  - change 0 with (inject_Z 0). rewrite <- Zle_Qle.
    apply rne_nonneg, scaled_nonneg, Hx.
  - apply Qlt_le_weak, pow2_pos.
Qed.

(** A power of two on the grid of [x] is a threshold of the rounding. *)
Lemma round64_pos_le_pow2 x t :
  x <= 2 ^ t -> (ulp_exponent x <= t)%Z -> round64_pos x <= 2 ^ t.
Proof.
  intros Hx Hk. unfold round64_pos. set (k := ulp_exponent x) in *.
  assert (Hgrid : 2 ^ t == inject_Z (2 ^ (t - k)) * 2 ^ k).
  { rewrite <- (pow2_Z (t - k)) by lia. rewrite <- pow2_add.
    replace (t - k + k)%Z with t by lia. reflexivity. }
  rewrite Hgrid. apply Qmult_le_compat_r; [|apply Qlt_le_weak, pow2_pos].
  rewrite <- Zle_Qle. rewrite <- (rne_Z (2 ^ (t - k))).
  apply rne_mono. rewrite <- (pow2_Z (t - k)) by lia.
  replace (t - k)%Z with (t + - k)%Z by lia. rewrite pow2_add.
  apply Qmult_le_compat_r; [exact Hx | apply Qlt_le_weak, pow2_pos].
Qed.

Lemma round64_pos_ge_pow2 x t :
  2 ^ t <= x -> (ulp_exponent x <= t)%Z -> 2 ^ t <= round64_pos x.
Proof.
  intros Hx Hk. unfold round64_pos. set (k := ulp_exponent x) in *.
  assert (Hgrid : 2 ^ t == inject_Z (2 ^ (t - k)) * 2 ^ k).
  { rewrite <- (pow2_Z (t - k)) by lia. rewrite <- pow2_add.
    replace (t - k + k)%Z with t by lia. reflexivity. }
  rewrite Hgrid. apply Qmult_le_compat_r; [|apply Qlt_le_weak, pow2_pos].
  rewrite <- Zle_Qle. rewrite <- (rne_Z (2 ^ (t - k))) at 1.
  apply rne_mono. rewrite <- (pow2_Z (t - k)) by lia.
  replace (t - k)%Z with (t + - k)%Z by lia. rewrite pow2_add.
  apply Qmult_le_compat_r; [exact Hx | apply Qlt_le_weak, pow2_pos].
Qed.

Lemma round64_pos_mono x y : 0 < x -> x <= y -> round64_pos x <= round64_pos y.
Proof.
  intros Hx Hxy.
  assert (Hy : 0 < y) by (apply Qlt_le_trans with x; assumption).
  pose proof (ilog2_mono x y Hx Hxy) as He.
  destruct (Z.eq_dec (ulp_exponent x) (ulp_exponent y)) as [Hk | Hk].
  - unfold round64_pos. rewrite <- Hk.
    apply Qmult_le_compat_r; [|apply Qlt_le_weak, pow2_pos].
    rewrite <- Zle_Qle. apply rne_mono.
    apply Qmult_le_compat_r; [exact Hxy | apply Qlt_le_weak, pow2_pos].
  - destruct (ilog2_spec x Hx) as [_ Hx2].
    destruct (ilog2_spec y Hy) as [Hy1 _].
    unfold ulp_exponent in Hk.
    apply Qle_trans with (2 ^ ilog2 y).
    + apply round64_pos_le_pow2.
      * apply Qle_trans with (2 ^ (ilog2 x + 1)); [apply Qlt_le_weak, Hx2|].
        apply pow2_le. lia.
      * unfold ulp_exponent. lia.
    + apply round64_pos_ge_pow2; [exact Hy1|]. unfold ulp_exponent. lia.
Qed.

Lemma round64_pos_comp x y : 0 < x -> x == y -> round64_pos x == round64_pos y.
Proof.
  intros Hx Hxy. unfold round64_pos, ulp_exponent.
  rewrite <- (ilog2_comp x y Hx Hxy).
  rewrite (rne_comp (x * _) (y * 2 ^ (- Z.max (ilog2 x - 52) (-1074)))).
  - reflexivity.
  - apply Qmult_comp; [exact Hxy | reflexivity].
Qed.

Lemma round64_nonneg x : 0 <= x -> 0 <= round64 x.
Proof.
  intros Hx. unfold round64.
  destruct (Qcompare_spec x 0) as [H | H | H].
  - apply Qle_refl.
  - exfalso. lra.
  - apply round64_pos_nonneg, Hx.
Qed.

Lemma round64_mono x y : 0 <= x -> x <= y -> round64 x <= round64 y.
Proof.
  intros Hx Hxy. unfold round64 at 1.
  destruct (Qcompare_spec x 0) as [H | H | H].
  - apply round64_nonneg. lra.
  - exfalso. lra.
  - unfold round64. destruct (Qcompare_spec y 0) as [H' | H' | H'];
      [exfalso; lra | exfalso; lra |].
    apply round64_pos_mono; assumption.
Qed.

Lemma round64_comp x y : x == y -> round64 x == round64 y.
Proof.
  intros Hxy. unfold round64. rewrite (Qcompare_comp x y Hxy 0 0 (Qeq_refl 0)).
  destruct (Qcompare_spec y 0) as [H | H | H].
  - reflexivity.
  - apply Qopp_comp, round64_pos_comp; [lra | rewrite Hxy; reflexivity].
  - apply round64_pos_comp; [lra | exact Hxy].
Qed.

Lemma round64_half : round64 (1 # 2) == 1 # 2. Proof. vm_compute. reflexivity. Qed.
Lemma round64_one : round64 1 == 1. Proof. vm_compute. reflexivity. Qed.
Lemma round64_50 : round64 50 == 50. Proof. vm_compute. reflexivity. Qed.
Lemma round64_100 : round64 100 == 100. Proof. vm_compute. reflexivity. Qed.

(** [round64] against the binary64 arithmetic of the kernel: the product
    0.58 * 100, the differences 1 - (1 - 0.1), 1 - 2^-60 and 0.1 - 0.7, a
    product and two halved subnormal numbers (ties to even). *)
Lemma round64_agrees_with_binary64 :
  float_value 0x1.28f5c28f5c28fp-1 = p058 /\
  float_value (0x1.28f5c28f5c28fp-1 * 100)%float == round64 (p058 * 100) /\
  float_value (1 - (1 - 0x1.999999999999ap-4))%float
    == round64 (1 - round64 (1 - float_value 0x1.999999999999ap-4)) /\
  float_value (1 - 0x1p-60)%float == round64 (1 - float_value 0x1p-60) /\
  float_value (0x1.999999999999ap-4 - 0x1.6666666666666p-1)%float
    == round64 (float_value 0x1.999999999999ap-4
                - float_value 0x1.6666666666666p-1) /\
  float_value (0x1.999999999999ap-4 * 0x1.3333333333333p-2)%float
    == round64 (float_value 0x1.999999999999ap-4
                * float_value 0x1.3333333333333p-2) /\
  float_value (0x1p-1074 * 0x1p-1)%float
    == round64 (float_value 0x1p-1074 * (1 # 2)) /\
  float_value (0x3p-1074 * 0x1p-1)%float
    == round64 (float_value 0x3p-1074 * (1 # 2)).
Proof. repeat split; vm_compute; reflexivity. Qed.

End Rounding.

Lemma label_and_confidence_above prob :
  (1 # 2 < prob)%Q -> label_and_confidence prob = ("AI Image", prob).
Proof.
  intros Hlt. unfold label_and_confidence, Qgtb.
  destruct (Qle_bool prob (1 # 2)) eqn:Hle; [|done].
  apply Qle_bool_iff in Hle. by apply Qlt_not_le in Hlt.
Qed.

Lemma label_and_confidence_below prob :
  (prob <= 1 # 2)%Q ->
  label_and_confidence prob = ("Real Image", round64 (1 - prob)).
Proof.
  intros Hle. unfold label_and_confidence, Qgtb.
  apply Qle_bool_iff in Hle. by rewrite Hle.
Qed.

(** C4. Whenever [predict] reaches the fusion and the meta-model returns
    the probability [prob], the label is 'AI Image' if and only if
    prob > 0.5, and 'Real Image' if and only if prob <= 0.5; at
    prob = 0.5 the label is 'Real Image'. *)
Theorem predict_label_iff_above_half w p fp mc img a b feats prob :
  fp ∈ fs mc ->
  image_open_rgb w fp = Return img ->
  resnet p img = Return a ->
  vit p img = Return b ->
  poly p [a; b] = Return feats ->
  meta_model p feats = Return prob ->
  exists label conf mc',
    predict w p fp mc = (Return (label, conf), mc') /\
    (label = "AI Image" <-> (1 # 2 < prob)%Q) /\
    (label = "Real Image" <-> (prob <= 1 # 2)%Q) /\
    ((prob == 1 # 2)%Q -> label = "Real Image").
Proof.
  intros Hin Hopen Ha Hb Hfeats Hprob.
  rewrite (predict_run _ _ _ _ Hin).
  destruct (ensemble_fused w p fp img a b feats prob Hopen Ha Hb Hfeats Hprob)
    as [-> _].
  eexists _, _, _. split; [reflexivity|].
  destruct (Qlt_le_dec (1 # 2) prob) as [Hlt | Hle].
  - rewrite (label_and_confidence_above _ Hlt). cbn [fst].
    split; [split; [intros _; exact Hlt | done]|].
    split; [split; [discriminate | intros Hle; by apply Qlt_not_le in Hlt]|].
    intros Heq. rewrite Heq in Hlt. by apply Qlt_irrefl in Hlt.
  - rewrite (label_and_confidence_below _ Hle). cbn [fst].
    split; [split; [discriminate | intros Hlt; by apply Qlt_not_le in Hlt]|].
    split; [split; [intros _; exact Hle | done]|].
    done.
Qed.

Lemma predict_label_iff_above_half_witness :
  "uploads/photo.png" ∈ fs {| fs := {["uploads/photo.png"]}; trace := [] |} /\
  exists label conf mc',
    predict sample_world (sample_models (1 # 2)) "uploads/photo.png"
      {| fs := {["uploads/photo.png"]}; trace := [] |}
    = (Return (label, conf), mc') /\
    (label = "AI Image" <-> (1 # 2 < 1 # 2)%Q) /\
    (label = "Real Image" <-> (1 # 2 <= 1 # 2)%Q) /\
    ((1 # 2 == 1 # 2)%Q -> label = "Real Image").
Proof.
  split; [cbn [fs]; by apply elem_of_singleton_2|].
  apply (predict_label_iff_above_half sample_world (sample_models (1 # 2))
           "uploads/photo.png" _ [(200%Z, 120%Z, 40%Z)] (9 # 10) (8 # 10)
           [1; 9 # 10; 8 # 10; (9 # 10) * (9 # 10); (9 # 10) * (8 # 10);
            (8 # 10) * (8 # 10)]%Q (1 # 2)).
  - cbn [fs]. by apply elem_of_singleton_2.
  - reflexivity.
  - reflexivity.
  - reflexivity.
  - reflexivity.
  - reflexivity.
Defined.

Lemma round64_below_half x : (0 <= x <= 1 # 2)%Q -> (round64 x <= 1 # 2)%Q.
Proof.
  intros [Hlo Hhi]. apply Qle_trans with (round64 (1 # 2)).
  - by apply round64_mono.
  - rewrite round64_half. apply Qle_refl.
Qed.

Lemma round64_above_half x : (1 # 2 <= x)%Q -> (1 # 2 <= round64 x)%Q.
Proof.
  intros Hlo. apply Qle_trans with (round64 (1 # 2)).
  - rewrite round64_half. apply Qle_refl.
  - by apply round64_mono.
Qed.

Lemma certainty_is_max prob :
  (0 <= prob <= 1)%Q ->
  ((label_and_confidence prob).2 == Qmax prob (round64 (1 - prob)))%Q.
Proof.
  intros [Hlo Hhi].
  destruct (Qlt_le_dec (1 # 2) prob) as [Hlt | Hle].
  - rewrite (label_and_confidence_above _ Hlt). cbn [snd].
    symmetry. apply Q.max_l.
    apply Qle_trans with (1 # 2); [|by apply Qlt_le_weak].
    apply round64_below_half. split; lra.
  - rewrite (label_and_confidence_below _ Hle). cbn [snd].
    symmetry. apply Q.max_r.
    apply Qle_trans with (1 # 2); [exact Hle|].
    apply round64_above_half. lra.
Qed.

(** C5. For every request that reaches the fusion, with the fused
    probability [prob] in [0,1], the confidence of the result and of its
    ensemble layer is the same number, equal to 100 * max(prob, 1 - prob)
    as binary64 computes it: the subtraction and the product are each
    rounded to the nearest float. *)
Theorem reported_confidence_is_certainty w p request name mc d img a b feats prob :
  upload_of request = Some name ->
  manifest_record w (staged_path w name) = Return d ->
  present d = false ->
  image_open_rgb w (staged_path w name) = Return img ->
  resnet p img = Return a ->
  vit p img = Return b ->
  poly p [a; b] = Return feats ->
  meta_model p feats = Return prob ->
  (0 <= prob <= 1)%Q ->
  exists r mc' c,
    analyze_image w (Some p) request mc = (Return (Ok r), mc') /\
    confidence r = PFloat c /\
    getitem "confidence" (ai_model (layers r)) = PFloat c /\
    (c == round64 (100 * Qmax prob (round64 (1 - prob))))%Q.
Proof.
  intros Hup Hd Hp Hopen Ha Hb Hfeats Hprob Hrange.
  destruct (analyze_image_path w (Some p) request name mc d Hup Hd)
    as (r & evs & Hrun & Hpath).
  destruct (ensemble_fused w p _ img a b feats prob Hopen Ha Hb Hfeats Hprob)
    as [Hfused _].
  destruct Hpath as [Hp' | _ Hpr | p' label conf cp _ Hpr Hens Hcp | p' e _ Hpr Hens];
    [congruence | discriminate Hpr | | injection Hpr as <-; congruence].
  injection Hpr as <-. rewrite Hfused in Hens. injection Hens as <- <-.
  cbn [py_mul_int] in Hcp. injection Hcp as <-.
  eexists _, _, _. split; [exact Hrun|].
  cbn [confidence layers ai_model]. split; [reflexivity|]. split; [reflexivity|].
  apply round64_comp. rewrite (certainty_is_max prob Hrange).
  change (inject_Z 100) with 100%Q. ring.
Qed.

Lemma reported_confidence_is_certainty_witness :
  upload_of (upload "photo.png") = Some "photo.png" /\
  manifest_record sample_world (staged_path sample_world "photo.png")
    = Return no_manifest_record /\
  present no_manifest_record = false /\
  (0 <= p058 <= 1)%Q /\
  exists r mc' c,
    analyze_image sample_world (Some (sample_models p058))
      (upload "photo.png") start = (Return (Ok r), mc') /\
    confidence r = PFloat c /\
    getitem "confidence" (ai_model (layers r)) = PFloat c /\
    (c == round64 (100 * Qmax p058 (round64 (1 - p058))))%Q.
Proof.
  assert (Hrange : (0 <= p058 <= 1)%Q) by (split; discriminate).
  split; [reflexivity|]. split; [by apply photo_manifest_record|].
  split; [reflexivity|]. split; [exact Hrange|].
  apply (reported_confidence_is_certainty sample_world (sample_models p058)
           (upload "photo.png") "photo.png" start no_manifest_record
           [(200%Z, 120%Z, 40%Z)] (9 # 10) (8 # 10)
           [1; 9 # 10; 8 # 10; (9 # 10) * (9 # 10); (9 # 10) * (8 # 10);
            (8 # 10) * (8 # 10)]%Q p058).
  - reflexivity.
  - by apply photo_manifest_record.
  - reflexivity.
  - reflexivity.
  - reflexivity.
  - reflexivity.
  - reflexivity.
  - reflexivity.
  - exact Hrange.
Defined.

(** The rounding is visible: for the float 0.58 the route reports
    57.99999999999999 (8162774324609023 * 2^-47), not 58. *)
Lemma confidence_of_058 :
  py_mul_int (PFloat (label_and_confidence p058).2) 100
  = Return (PFloat (8162774324609023 # 140737488355328)) /\
  ~ (8162774324609023 # 140737488355328 == 100 * Qmax p058 (1 - p058))%Q.
Proof. split; [vm_compute; reflexivity | vm_compute; discriminate]. Qed.

(** C6. On a platform with the c2pa library, whenever the body of the
    [try] raises (the reader, [json.loads], or any later step that picks
    the manifest apart), [check_c2pa] returns the record with
    c2pa_present False and the message of the exception under 'error', and
    nothing else; it does not raise. *)
Theorem check_c2pa_catches w fp mc e :
  C2PA_AVAILABLE w = true ->
  (check_c2pa_try w fp mc).1 = Raise e ->
  exists mc',
    check_c2pa w fp mc =
    (Return (dict [("c2pa_present", PBool false); ("error", PStr (exn_str e))]),
     mc').
Proof.
  intros Hav Hraise. unfold check_c2pa. rewrite Hav. cbn [negb].
  unfold try_except.
  destruct (check_c2pa_try w fp mc) as [[d|e'] mc']; simpl in Hraise;
    [discriminate|].
  injection Hraise as ->. by eexists.
Qed.

Lemma check_c2pa_catches_witness :
  C2PA_AVAILABLE sample_world = true /\
  (check_c2pa_try sample_world "uploads/broken.png" start).1
    = Raise (Exn "JSONDecodeError"
        "Expecting property name enclosed in double quotes: line 1 column 2 (char 1)") /\
  exists mc',
    check_c2pa sample_world "uploads/broken.png" start =
    (Return (dict [("c2pa_present", PBool false);
                   ("error", PStr
        "Expecting property name enclosed in double quotes: line 1 column 2 (char 1)")]),
     mc').
Proof.
  split; [reflexivity|]. split; [reflexivity|].
  exact (check_c2pa_catches sample_world "uploads/broken.png" start _
           eq_refl eq_refl).
Defined.

(** C7. Every record [check_c2pa] returns with c2pa_present false (or
    missing) has no 'valid', no 'issuer' and no 'ai_generated' key. *)
Theorem absent_record_has_no_fields w fp mc d mc' :
  check_c2pa w fp mc = (Return d, mc') ->
  present d = false ->
  d !! "valid" = None /\ d !! "issuer" = None /\ d !! "ai_generated" = None.
Proof.
  rewrite check_c2pa_run. intros Hrun Hp.
  destruct (manifest_record_shape w fp) as (d' & Hd' & Hshape).
  rewrite Hd' in Hrun. injection Hrun as -> _.
  destruct (present_shape d Hshape) as [[Hp' _] | [_ Hfields]];
    [congruence | exact Hfields].
Qed.

Lemma absent_record_has_no_fields_witness :
  check_c2pa sample_world "uploads/photo.png" start
    = (Return no_manifest_record,
       {| fs := ∅; trace := [EvC2paReader "uploads/photo.png"] |}) /\
  present no_manifest_record = false /\
  no_manifest_record !! "valid" = None /\
  no_manifest_record !! "issuer" = None /\
  no_manifest_record !! "ai_generated" = None.
Proof.
  split; [reflexivity|]. split; [reflexivity|].
  exact (absent_record_has_no_fields sample_world "uploads/photo.png" start
           no_manifest_record _ eq_refl eq_refl).
Defined.

Lemma last_request_event w fp (evs : list event) :
  last (EvSave fp :: EvSleep 1500 :: manifest_events w fp ++ evs ++ [EvRemove fp])
  = Some (EvRemove fp).
Proof. rewrite app_assoc, 2!app_comm_cons. apply last_snoc. Qed.

(** C8. A request that is rejected before the upload is saved returns
    with the machine untouched: there is nothing to release. Every other
    request returns a result, whatever its success flag, and between the
    save and the return the staged file is removed exactly once, as the
    last call, and is gone afterwards. *)
Theorem staged_file_removed_once w pr request mc :
  match upload_of request with
  | None =>
      exists msg, analyze_image w pr request mc = (Return (BadRequest msg), mc)
  | Some name =>
      exists r mc',
        analyze_image w pr request mc = (Return (Ok r), mc') /\
        head (new_events mc mc') = Some (EvSave (staged_path w name)) /\
        removals (staged_path w name) (new_events mc mc') = 1 /\
        last (new_events mc mc') = Some (EvRemove (staged_path w name)) /\
        staged_path w name ∉ fs mc'
  end.
Proof.
  destruct (upload_of request) as [name|] eqn:Hup;
    [|by apply analyze_image_rejected].
  destruct (manifest_record_shape w (staged_path w name)) as (d & Hd & _).
  destruct (analyze_image_path w pr request name mc d Hup Hd)
    as (r & evs & Hrun & Hpath).
  eexists r, _. split; [exact Hrun|].
  erewrite new_events_app by (cbn [trace]; reflexivity).
  split; [done|].
  rewrite removals_request, (request_path_no_removal _ _ _ _ _ _ Hpath).
  split; [done|]. split; [apply last_request_event|].
  cbn [fs]. apply not_elem_of_difference. right. by apply elem_of_singleton_2.
Qed.

(** C9. There is an upload that cannot be decoded as an image for which
    [predict] returns the pair ('Error', message) and the route answers
    with success=true, the verdict 'Error', is_ai_generated=false and, as
    confidence, the message repeated 100 times: a string, not a number in
    [0,100]. *)
Theorem undecodable_upload_reports_message_as_confidence :
  exists w p request name msg r mc',
    upload_of request = Some name /\
    (exists e, image_open_rgb w (staged_path w name) = Raise e) /\
    predict w p (staged_path w name)
      {| fs := {[staged_path w name]}; trace := [] |}
    = (Return ("Error", PStr msg),
       {| fs := {[staged_path w name]};
          trace := [EvImageOpen (staged_path w name)] |}) /\
    analyze_image w (Some p) request start = (Return (Ok r), mc') /\
    success r = true /\
    error r = None /\
    final_verdict r = PStr "Error" /\
    is_ai_generated r = false /\
    confidence r = PStr (repeat_string msg 100) /\
    outcome_of (ai_model (layers r))
      = Complete (PStr "Error") (PStr (repeat_string msg 100)).
Proof.
  exists sample_world, (sample_models (87 # 100)), (upload "notes.png"),
    "notes.png",
    "Invalid image file: cannot identify image file 'uploads/notes.png'".
  destruct (analyze_image_path sample_world (Some (sample_models (87 # 100)))
              (upload "notes.png") "notes.png" start no_manifest_record
              eq_refl (photo_manifest_record "notes.png" eq_refl))
    as (r & evs & Hrun & Hpath).
  destruct (ensemble_undecodable sample_world (sample_models (87 # 100))
              (staged_path sample_world "notes.png")
              (Exn "UnidentifiedImageError"
                   "cannot identify image file 'uploads/notes.png'") eq_refl)
    as [Hout Hevs].
  eexists r, _. split; [reflexivity|]. split; [by eexists|].
  split.
  { rewrite predict_run by (cbn [fs]; by apply elem_of_singleton_2).
    rewrite Hout, Hevs. reflexivity. }
  split; [exact Hrun|].
  destruct Hpath as [Hp | _ Hpr | p label conf cp _ Hpr Hens Hcp | p e _ Hpr Hens];
    [discriminate Hp | discriminate Hpr | | injection Hpr as <-; congruence].
  injection Hpr as <-. rewrite Hout in Hens. injection Hens as <- <-.
  cbn [py_mul_int] in Hcp. injection Hcp as <-.
  by repeat split.
Qed.

(** C10. On a platform with the c2pa library, when the reader yields an
    empty manifest store, or the store parses to an object that names no
    active manifest, the Manifest Record has c2pa_present False, a
    'message' and no 'error' key, and the request goes down the ensemble
    path: the watermark layer is skipped as not implemented, the request
    is not short-circuited, and a loaded predictor is asked to open the
    image. *)
Theorem empty_or_inactive_store_is_negative w pr request name mc :
  upload_of request = Some name ->
  C2PA_AVAILABLE w = true ->
  (c2pa_reader_json w (staged_path w name) = Return "" \/
   exists s md,
     c2pa_reader_json w (staged_path w name) = Return s /\
     s <> "" /\
     json_loads w s = Return (PDict md) /\
     truthy (default PNone (md !! "active_manifest")) = false) ->
  exists d msg r mc',
    manifest_record w (staged_path w name) = Return d /\
    d !! "c2pa_present" = Some (PBool false) /\
    d !! "message" = Some (PStr msg) /\
    d !! "error" = None /\
    analyze_image w pr request mc = (Return (Ok r), mc') /\
    outcome_of (synthid (layers r)) = Skipped (PStr "Not implemented") /\
    ~ short_circuited r (new_events mc mc') /\
    (forall p, pr = Some p ->
       In (EvImageOpen (staged_path w name)) (new_events mc mc')) /\
    (pr = None ->
       outcome_of (ai_model (layers r)) = Error (PStr "AI model not loaded")).
Proof.
  intros Hup Hav Hstore.
  set (fp := staged_path w name) in *.
  assert (Hrec : exists msg,
            manifest_record w fp
            = Return (dict [("c2pa_present", PBool false); ("message", PStr msg)])).
  { unfold manifest_record, check_c2pa, check_c2pa_try, read_manifest.
    rewrite Hav. run.
    destruct Hstore as [-> | (s & md & -> & Hs & Hloads & Hfalsy)].
    - by eexists.
    - apply String.eqb_neq in Hs. rewrite Hs, Hloads. run.
      cbn [py_get]. rewrite Hfalsy. by eexists. }
  destruct Hrec as [msg Hd].
  destruct (analyze_image_path w pr request name mc _ Hup Hd)
    as (r & evs & Hrun & Hpath).
  eexists _, msg, r, _. split; [exact Hd|].
  split; [reflexivity|]. split; [reflexivity|]. split; [reflexivity|].
  split; [exact Hrun|].
  erewrite new_events_app by (cbn [trace]; reflexivity).
  assert (Hopen : forall p rest,
            In (EvImageOpen fp)
               (EvSave fp :: EvSleep 1500 :: manifest_events w fp ++
                ([EvSleep 1000; EvSleep 2000] ++ ensemble_events w p fp) ++ rest)).
  { intros p rest. right. right. apply in_or_app. right.
    apply in_or_app. left. right. right.
    destruct (ensemble_cases w p fp)
      as [(e & _ & _ & ->) | [(prob & _ & ->) | (e & evs' & _ & -> & _)]];
      by left. }
  destruct Hpath as [Hp | _ -> | p label conf cp _ -> _ _ | p e _ -> _];
    [discriminate Hp | | | ];
    cbn [layers synthid ai_model]; (split; [reflexivity|]);
    (split; [intros (_ & _ & _ & Hs & _); discriminate Hs|]).
  - split; [intros; discriminate | done].
  - split; [intros p' _; apply Hopen | intros; discriminate].
  - split; [intros p' _; apply Hopen | intros; discriminate].
Qed.

Lemma empty_or_inactive_store_is_negative_witness :
  upload_of (upload "inactive.png") = Some "inactive.png" /\
  C2PA_AVAILABLE sample_world = true /\
  (exists s md,
     c2pa_reader_json sample_world (staged_path sample_world "inactive.png")
       = Return s /\
     s <> "" /\
     json_loads sample_world s = Return (PDict md) /\
     truthy (default PNone (md !! "active_manifest")) = false) /\
  exists d msg r mc',
    manifest_record sample_world (staged_path sample_world "inactive.png")
      = Return d /\
    d !! "c2pa_present" = Some (PBool false) /\
    d !! "message" = Some (PStr msg) /\
    d !! "error" = None /\
    analyze_image sample_world (Some (sample_models (87 # 100)))
      (upload "inactive.png") start = (Return (Ok r), mc') /\
    outcome_of (synthid (layers r)) = Skipped (PStr "Not implemented") /\
    ~ short_circuited r (new_events start mc') /\
    (forall p, Some (sample_models (87 # 100)) = Some p ->
       In (EvImageOpen (staged_path sample_world "inactive.png"))
          (new_events start mc')) /\
    (Some (sample_models (87 # 100)) = None ->
       outcome_of (ai_model (layers r)) = Error (PStr "AI model not loaded")).
Proof.
  assert (Hstore : exists s md,
     c2pa_reader_json sample_world (staged_path sample_world "inactive.png")
       = Return s /\
     s <> "" /\
     json_loads sample_world s = Return (PDict md) /\
     truthy (default PNone (md !! "active_manifest")) = false).
  { exists inactive_json, (dict [("manifests", PDict ∅)]).
    split; [reflexivity|]. split; [discriminate|]. split; reflexivity. }
  split; [reflexivity|]. split; [reflexivity|]. split; [exact Hstore|].
  exact (empty_or_inactive_store_is_negative sample_world
           (Some (sample_models (87 # 100))) (upload "inactive.png")
           "inactive.png" start eq_refl eq_refl (or_intror Hstore)).
Defined.

(* ===================================================================== *)
(* Further properties of the code                                         *)
(* ===================================================================== *)

Local Open Scope list_scope.

Lemma manifest_unavailable w fp :
  C2PA_AVAILABLE w = false ->
  manifest_record w fp =
    Return (dict [("c2pa_present", PBool false);
                  ("available", PBool false);
                  ("message", PStr "C2PA library not available on this platform")]) /\
  manifest_events w fp = [].
Proof.
  intros Hav. unfold manifest_record, manifest_events, check_c2pa.
  by rewrite Hav.
Qed.

Lemma ensemble_events_prefix w p fp :
  exists rest, all_ensemble_events fp = ensemble_events w p fp ++ rest.
Proof.
  unfold all_ensemble_events, ensemble_events, predict. run.
  rewrite (bool_decide_eq_true_2 (fp ∈ ({[fp]} : gset string))) by set_solver.
  run.
  destruct (image_open_rgb w fp) as [img|e]; run; [|by eexists].
  destruct (resnet p img) as [a|e]; run; [|by eexists].
  destruct (vit p img) as [b|e]; run; [|by eexists].
  destruct (poly p [a; b]) as [feats|e]; run; [|by eexists].
  destruct (meta_model p feats) as [prob|e]; run; [|by eexists].
  destruct (label_and_confidence prob). run. by exists [].
Qed.

Lemma ensemble_events_in w p fp e :
  In e (ensemble_events w p fp) -> In e (all_ensemble_events fp).
Proof.
  destruct (ensemble_events_prefix w p fp) as [rest ->].
  intros Hin. apply in_or_app. by left.
Qed.

Lemma request_path_events w pr name d r evs e :
  request_path w pr name d r evs ->
  In e evs ->
  (exists ms, e = EvSleep ms) \/ In e (all_ensemble_events (staged_path w name)).
Proof.
  destruct 1 as [? | ? ? | p ? ? ? ? ? ? ? | p ? ? ? ?]; cbn [app In].
  - intros [<- | [<- | []]]; left; by eexists.
  - intros [<- | [<- | []]]; left; by eexists.
  - intros [<- | [<- | Hin]]; [left; by eexists | left; by eexists |].
    right. by eapply ensemble_events_in.
  - intros [<- | [<- | Hin]]; [left; by eexists | left; by eexists |].
    right. by eapply ensemble_events_in.
Qed.

(** X1. [check_c2pa] always returns one of its five records, never
    raises, leaves the file system as it is, and calls at most the reader
    and then [json.loads]. *)
Theorem check_c2pa_returns_record w fp mc :
  exists d evs,
    check_c2pa w fp mc =
      (Return d, {| fs := fs mc; trace := trace mc ++ evs |}) /\
    record_shape d /\
    (evs = [] \/ evs = [EvC2paReader fp] \/ evs = [EvC2paReader fp; EvJsonLoads]).
Proof.
  destruct (manifest_record_shape w fp) as (d & Hd & Hshape).
  exists d, (manifest_events w fp).
  rewrite check_c2pa_run, Hd. split; [done|]. split; [done|].
  apply manifest_events_cases.
Qed.

(** X2. On a platform without the c2pa library an accepted request never
    calls the reader or [json.loads]; the provenance layer is marked
    unavailable, the watermark layer is skipped as not implemented, and a
    loaded predictor is run on the staged file. *)
Theorem platform_without_c2pa_goes_to_ensemble w pr request name mc :
  upload_of request = Some name ->
  C2PA_AVAILABLE w = false ->
  exists r mc',
    analyze_image w pr request mc = (Return (Ok r), mc') /\
    outcome_of (c2pa (layers r)) = Unavailable /\
    getitem "c2pa_present" (c2pa (layers r)) = PBool false /\
    outcome_of (synthid (layers r)) = Skipped (PStr "Not implemented") /\
    (forall path, ~ In (EvC2paReader path) (new_events mc mc')) /\
    ~ In EvJsonLoads (new_events mc mc') /\
    (forall p, pr = Some p ->
       In (EvImageOpen (staged_path w name)) (new_events mc mc')).
Proof.
  intros Hup Hav.
  destruct (manifest_unavailable w (staged_path w name) Hav) as [Hd Hev].
  destruct (analyze_image_path w pr request name mc _ Hup Hd)
    as (r & evs & Hrun & Hpath).
  rewrite Hev in Hrun. cbn [app] in Hrun.
  eexists r, _. split; [exact Hrun|].
  erewrite new_events_app by (cbn [trace]; reflexivity).
  assert (Hquiet : forall e,
            In e (EvSave (staged_path w name) :: EvSleep 1500 ::
                  evs ++ [EvRemove (staged_path w name)]) ->
            (forall path, e <> EvC2paReader path) /\ e <> EvJsonLoads).
  { intros e [<- | [<- | Hin]]; [done | done |].
    apply in_app_or in Hin as [Hin | [<- | []]]; [|done].
    destruct (request_path_events _ _ _ _ _ _ e Hpath Hin) as [[ms ->] | Hens];
      [done|].
    destruct Hens as [<- | [<- | [<- | [<- | [<- | []]]]]]; done. }
  assert (Hopen : forall p rest,
            In (EvImageOpen (staged_path w name))
               (EvSave (staged_path w name) :: EvSleep 1500 ::
                ([EvSleep 1000; EvSleep 2000] ++
                 ensemble_events w p (staged_path w name)) ++ rest)).
  { intros p rest. right. right. apply in_or_app. left. right. right.
    destruct (ensemble_cases w p (staged_path w name))
      as [(e & _ & _ & ->) | [(prob & _ & ->) | (e & evs' & _ & -> & _)]];
      by left. }
  destruct Hpath as [Hp | _ -> | p label conf cp _ -> _ _ | p e _ -> _];
    [discriminate Hp | | | ];
    cbn [layers c2pa synthid];
    (split; [reflexivity|]); (split; [reflexivity|]); (split; [reflexivity|]);
    (split; [intros path Hin; by destruct (Hquiet _ Hin) as [Hno _];
                                 apply (Hno path)|]);
    (split; [intros Hin; by destruct (Hquiet _ Hin) as [_ Hno]|]).
  - intros; discriminate.
  - intros p' _. apply Hopen.
  - intros p' _. apply Hopen.
Qed.

Lemma platform_without_c2pa_goes_to_ensemble_witness :
  upload_of (upload "photo.png") = Some "photo.png" /\
  C2PA_AVAILABLE bare_world = false /\
  exists r mc',
    analyze_image bare_world (Some (sample_models (87 # 100)))
      (upload "photo.png") start = (Return (Ok r), mc') /\
    outcome_of (c2pa (layers r)) = Unavailable /\
    getitem "c2pa_present" (c2pa (layers r)) = PBool false /\
    outcome_of (synthid (layers r)) = Skipped (PStr "Not implemented") /\
    (forall path, ~ In (EvC2paReader path) (new_events start mc')) /\
    ~ In EvJsonLoads (new_events start mc') /\
    (forall p, Some (sample_models (87 # 100)) = Some p ->
       In (EvImageOpen (staged_path bare_world "photo.png"))
          (new_events start mc')).
Proof.
  split; [reflexivity|]. split; [reflexivity|].
  exact (platform_without_c2pa_goes_to_ensemble bare_world
           (Some (sample_models (87 # 100))) (upload "photo.png")
           "photo.png" start eq_refl eq_refl).
Defined.

(** The record of a store that parses to an object naming an active
    manifest: what lines 34 to 62 compute, or the error record. *)
Lemma manifest_record_parsed w fp s md lbl :
  C2PA_AVAILABLE w = true ->
  c2pa_reader_json w fp = Return s ->
  s <> "" ->
  json_loads w s = Return (PDict md) ->
  default PNone (md !! "active_manifest") = lbl ->
  truthy lbl = true ->
  manifest_record w fp =
  match
    (let? active_manifest :=
       py_get_val (default (PDict ∅) (md !! "manifests")) lbl (PDict ∅) in
     let? n := py_len (default (PList []) (md !! "validation_status")) in
     let? signature := py_get active_manifest "signature_info" (PDict ∅) in
     let? issuer := py_get signature "issuer" PNone in
     let? assertions := py_get active_manifest "assertions" (PList []) in
     let? items := py_iter assertions in
     let? is_ai := scan_assertions items false in
     Return (dict [("c2pa_present", PBool true);
                   ("valid", PBool (Nat.eqb n 0));
                   ("issuer", issuer);
                   ("ai_generated", PBool is_ai);
                   ("raw_data", PDict md)]))
  with
  | Return d => Return d
  | Raise e => Return (dict [("c2pa_present", PBool false);
                             ("error", PStr (exn_str e))])
  end.
Proof.
  intros Hav Hreader Hs Hloads Hlbl Htruthy.
  unfold manifest_record, check_c2pa, check_c2pa_try, read_manifest.
  rewrite Hav. run. rewrite Hreader. run.
  apply String.eqb_neq in Hs. rewrite Hs, Hloads. run.
  cbn [py_get]. rewrite Hlbl, Htruthy. cbn [negb obind].
  match goal with
  | |- context [obind ?a ?b] => by destruct (obind a b)
  end.
Qed.

(** X3. When a store parses to an object and [check_c2pa] reports the
    manifest present, the record carries the parsed store as raw_data,
    its validation_status has a length and valid is true exactly when
    that length is zero (a missing validation_status counts as empty),
    and ai_generated is a boolean. *)
Theorem present_record_fields w fp s md d :
  C2PA_AVAILABLE w = true ->
  c2pa_reader_json w fp = Return s ->
  s <> "" ->
  json_loads w s = Return (PDict md) ->
  manifest_record w fp = Return d ->
  present d = true ->
  d !! "raw_data" = Some (PDict md) /\
  (exists n,
     py_len (default (PList []) (md !! "validation_status")) = Return n /\
     d !! "valid" = Some (PBool (Nat.eqb n 0))) /\
  (exists is_ai, d !! "ai_generated" = Some (PBool is_ai)).
Proof.
  intros Hav Hreader Hs Hloads Hd Hp.
  destruct (truthy (default PNone (md !! "active_manifest"))) eqn:Htruthy.
  - rewrite (manifest_record_parsed w fp s md _ Hav Hreader Hs Hloads eq_refl Htruthy)
      in Hd.
    match type of Hd with
    | context [obind ?a ?b] => destruct (obind a b) as [d0|e] eqn:Hchain
    end.
    2: { injection Hd as <-. discriminate Hp. }
    injection Hd as <-.
    apply obind_Return_inv in Hchain as (am & _ & Hchain).
    apply obind_Return_inv in Hchain as (n & Hn & Hchain).
    apply obind_Return_inv in Hchain as (sig & _ & Hchain).
    apply obind_Return_inv in Hchain as (issuer & _ & Hchain).
    apply obind_Return_inv in Hchain as (assertions & _ & Hchain).
    apply obind_Return_inv in Hchain as (items & _ & Hchain).
    apply obind_Return_inv in Hchain as (is_ai & _ & Hchain).
    injection Hchain as <-.
    split; [reflexivity|]. split; [by exists n | by exists is_ai].
  - exfalso. revert Hd.
    unfold manifest_record, check_c2pa, check_c2pa_try, read_manifest.
    rewrite Hav. run. rewrite Hreader. run.
    apply String.eqb_neq in Hs. rewrite Hs, Hloads. run.
    cbn [py_get]. rewrite Htruthy. cbn [negb]. run.
    intros [= <-]. discriminate Hp.
Qed.

Lemma present_record_fields_witness :
  C2PA_AVAILABLE sample_world = true /\
  c2pa_reader_json sample_world "uploads/camera.jpg" = Return camera_json /\
  camera_json <> "" /\
  manifest_record sample_world "uploads/camera.jpg" = Return camera_record /\
  present camera_record = true /\
  camera_record !! "raw_data" = Some camera_store /\
  (exists n,
     py_len (PList []) = Return n /\
     camera_record !! "valid" = Some (PBool (Nat.eqb n 0))) /\
  (exists is_ai, camera_record !! "ai_generated" = Some (PBool is_ai)).
Proof.
  split; [reflexivity|]. split; [reflexivity|]. split; [discriminate|].
  split; [exact camera_manifest_record|]. split; [reflexivity|].
  exact (present_record_fields sample_world "uploads/camera.jpg" camera_json
           (dict [("active_manifest", PStr "urn:uuid:camera");
                  ("manifests",
                   PDict (dict [("urn:uuid:camera",
                     PDict (dict [("signature_info",
                                   PDict (dict [("issuer", PStr "Leica Camera AG")]));
                                  ("assertions",
                                   PList [PDict (dict [("label", PStr "c2pa.actions");
                                     ("data", PDict (dict [("actions",
                                       PList [PDict (dict [("action", PStr "c2pa.created");
                                         ("digitalSourceType", PStr
     "http://cv.iptc.org/newscodes/digitalsourcetype/digitalCapture")])])]))])])]))]))])
           camera_record eq_refl eq_refl ltac:(discriminate) eq_refl
           camera_manifest_record eq_refl).
Defined.

(** X4. A store that names an active manifest which it does not hold
    (no manifests object, or none under that label), and has no
    validation_status, is reported present and valid with no issuer and
    no AI signal, and the route answers 'AI Generated (C2PA Verified)'
    with confidence 100. *)
Theorem dangling_active_manifest_is_verified w pr request name mc s md label :
  upload_of request = Some name ->
  C2PA_AVAILABLE w = true ->
  c2pa_reader_json w (staged_path w name) = Return s ->
  s <> "" ->
  json_loads w s = Return (PDict md) ->
  md !! "active_manifest" = Some (PStr label) ->
  label <> "" ->
  (md !! "manifests" = None \/
   exists ms, md !! "manifests" = Some (PDict ms) /\ ms !! label = None) ->
  md !! "validation_status" = None ->
  manifest_record w (staged_path w name) =
    Return (dict [("c2pa_present", PBool true);
                  ("valid", PBool true);
                  ("issuer", PNone);
                  ("ai_generated", PBool false);
                  ("raw_data", PDict md)]) /\
  exists r mc',
    analyze_image w pr request mc = (Return (Ok r), mc') /\
    success r = true /\
    final_verdict r = PStr "AI Generated (C2PA Verified)" /\
    confidence r = PFloat 100 /\
    is_ai_generated r = true /\
    getitem "issuer" (c2pa (layers r)) = PNone.
Proof.
  intros Hup Hav Hreader Hs Hloads Hlabel Hne Hmanifests Hstatus.
  assert (Htruthy : truthy (PStr label) = true).
  { cbn [truthy]. apply String.eqb_neq in Hne. by rewrite Hne. }
  assert (Hactive :
            py_get_val (default (PDict ∅) (md !! "manifests")) (PStr label) (PDict ∅)
            = Return (PDict ∅)).
  { destruct Hmanifests as [-> | (ms & -> & Hms)].
    - change (default (PDict ∅) None) with (PDict ∅). cbn [py_get_val].
      by rewrite lookup_empty.
    - change (default (PDict ∅) (Some (PDict ms))) with (PDict ms).
      cbn [py_get_val]. by rewrite Hms. }
  assert (Hd : manifest_record w (staged_path w name) =
    Return (dict [("c2pa_present", PBool true);
                  ("valid", PBool true);
                  ("issuer", PNone);
                  ("ai_generated", PBool false);
                  ("raw_data", PDict md)])).
  { rewrite (manifest_record_parsed w _ s md (PStr label) Hav Hreader Hs Hloads
               ltac:(by rewrite Hlabel) Htruthy).
    rewrite Hactive, Hstatus. reflexivity. }
  split; [exact Hd|].
  destruct (analyze_image_path w pr request name mc _ Hup Hd)
    as (r & evs & Hrun & Hpath).
  eexists r, _. split; [exact Hrun|].
  destruct Hpath as [_ | Hp _ | p lbl conf cp Hp _ _ _ | p e Hp _ _];
    try discriminate Hp.
  by repeat split.
Qed.

Lemma dangling_active_manifest_is_verified_witness :
  upload_of (upload "photo.png") = Some "photo.png" /\
  manifest_record dangling_world (staged_path dangling_world "photo.png") =
    Return (dict [("c2pa_present", PBool true);
                  ("valid", PBool true);
                  ("issuer", PNone);
                  ("ai_generated", PBool false);
                  ("raw_data",
                   PDict (dict [("active_manifest", PStr "urn:uuid:gone")]))]) /\
  exists r mc',
    analyze_image dangling_world None (upload "photo.png") start
      = (Return (Ok r), mc') /\
    success r = true /\
    final_verdict r = PStr "AI Generated (C2PA Verified)" /\
    confidence r = PFloat 100 /\
    is_ai_generated r = true /\
    getitem "issuer" (c2pa (layers r)) = PNone.
Proof.
  split; [reflexivity|].
  apply (dangling_active_manifest_is_verified dangling_world None
           (upload "photo.png")
           "photo.png" start "{..}"
           (dict [("active_manifest", PStr "urn:uuid:gone")]) "urn:uuid:gone").
  - reflexivity.
  - reflexivity.
  - reflexivity.
  - discriminate.
  - reflexivity.
  - reflexivity.
  - discriminate.
  - left. reflexivity.
  - reflexivity.
Defined.

(** X5. A store whose JSON text parses to anything but an object (a list,
    a number, a string, null) gives the error record with the message of
    the AttributeError on [get]; the manifest is reported absent. *)
Theorem store_not_an_object_is_an_error w fp s v :
  C2PA_AVAILABLE w = true ->
  c2pa_reader_json w fp = Return s ->
  s <> "" ->
  json_loads w s = Return v ->
  is_object v = false ->
  manifest_record w fp =
    Return (dict [("c2pa_present", PBool false);
                  ("error", PStr ("'" +:+ type_name v +:+
                                  "' object has no attribute 'get'"))]) /\
  manifest_events w fp = [EvC2paReader fp; EvJsonLoads].
Proof.
  intros Hav Hreader Hs Hloads Hobj.
  unfold manifest_record, manifest_events, check_c2pa, check_c2pa_try,
    read_manifest.
  rewrite Hav. run. rewrite Hreader. run.
  apply String.eqb_neq in Hs. rewrite Hs, Hloads. run.
  by destruct v.
Qed.

Lemma store_not_an_object_is_an_error_witness :
  manifest_record listy_world "uploads/photo.png" =
    Return (dict [("c2pa_present", PBool false);
                  ("error", PStr "'list' object has no attribute 'get'")]) /\
  manifest_events listy_world "uploads/photo.png"
    = [EvC2paReader "uploads/photo.png"; EvJsonLoads].
Proof.
  apply (store_not_an_object_is_an_error listy_world "uploads/photo.png" "[1, 2]"
           (PList [PInt 1; PInt 2])).
  - reflexivity.
  - reflexivity.
  - discriminate.
  - reflexivity.
  - reflexivity.
Defined.

Lemma scan_actions_well_formed actions is_ai :
  forallb well_formed_action actions = true ->
  scan_actions actions is_ai = Return (is_ai || existsb action_is_ai actions).
Proof.
  revert is_ai. induction actions as [|action rest IH]; intros is_ai Hwf.
  - by rewrite orb_false_r.
  - cbn [forallb] in Hwf. apply andb_prop in Hwf as [Hact Hrest].
    unfold well_formed_action in Hact. cbn [existsb scan_actions].
    unfold action_is_ai at 1.
    destruct action as [| | | | |l|a]; try discriminate Hact.
    cbn [action_source py_get] in *.
    destruct (a !! "digitalSourceType") as [[| | | |src| |]|];
      try discriminate Hact; cbn [from_option id obind py_str_in];
      rewrite (IH _ Hrest).
    + unfold AI_SOURCE.
      by destruct (contains "trainedAlgorithmicMedia" src), is_ai.
    + change (contains "trainedAlgorithmicMedia" "") with false.
      change (contains AI_SOURCE "") with false. by destruct is_ai.
Qed.

(** X6. For the assertions of a well-formed manifest the two loops
    compute a disjunction: the flag is true exactly when it was true
    before or some assertion labelled c2pa.actions has an action whose
    digitalSourceType contains 'trainedAlgorithmicMedia'; assertions with
    another label are not looked into. *)
Theorem scan_assertions_well_formed assertions is_ai :
  forallb well_formed_assertion assertions = true ->
  scan_assertions assertions is_ai
  = Return (is_ai || existsb assertion_is_ai assertions).
Proof.
  revert is_ai. induction assertions as [|assertion rest IH]; intros is_ai Hwf.
  - by rewrite orb_false_r.
  - cbn [forallb] in Hwf. apply andb_prop in Hwf as [Hass Hrest].
    unfold well_formed_assertion in Hass. cbn [existsb scan_assertions].
    unfold assertion_is_ai at 1.
    destruct assertion as [| | | | |l|a]; try discriminate Hass.
    cbn [assertion_actions py_get obind] in *.
    destruct (is_str "c2pa.actions" (default PNone (a !! "label"))).
    2: { rewrite (IH _ Hrest). cbn [existsb]. by destruct is_ai. }
    destruct (default (PDict ∅) (a !! "data")) as [| | | | |l|data];
      try discriminate Hass.
    cbn [py_get obind] in *.
    destruct (default (PList []) (data !! "actions")) as [| | | | |actions|d'];
      try discriminate Hass.
    cbn [py_iter obind].
    destruct (forallb well_formed_action actions) eqn:Hactions;
      [|discriminate Hass].
    rewrite (scan_actions_well_formed _ _ Hactions). cbn [obind].
    rewrite (IH _ Hrest). by rewrite orb_assoc.
Qed.

Lemma scan_assertions_well_formed_witness :
  forallb well_formed_assertion sample_assertions = true /\
  scan_assertions sample_assertions false = Return true.
Proof.
  split; [reflexivity|].
  exact (scan_assertions_well_formed sample_assertions false eq_refl).
Defined.

(** X7. The scan has no early exit and no guard: an action that is not an
    object makes it raise the AttributeError of [get], also when an
    earlier action has already marked the manifest as generated. *)
Theorem scan_actions_malformed_action good bad rest is_ai :
  forallb well_formed_action good = true ->
  is_object bad = false ->
  scan_actions (good ++ bad :: rest) is_ai = Raise (AttributeError bad "get").
Proof.
  intros Hgood Hbad. revert is_ai.
  induction good as [|action good IH]; intros is_ai.
  - cbn [app scan_actions]. by destruct bad.
  - cbn [forallb] in Hgood. apply andb_prop in Hgood as [Hact Hgood].
    cbn [app scan_actions].
    pose proof (scan_actions_well_formed [action] is_ai) as Hone.
    cbn [forallb scan_actions] in Hone. rewrite Hact in Hone.
    specialize (Hone eq_refl).
    destruct (py_get action "digitalSourceType" (PStr "")) as [dst|e];
      [|discriminate Hone].
    cbn [obind] in *.
    destruct (py_str_in "trainedAlgorithmicMedia" dst) as [hit|e];
      [|discriminate Hone].
    cbn [obind]. by apply IH.
Qed.

Lemma scan_actions_malformed_action_witness :
  forallb well_formed_action
    [PDict (dict [("digitalSourceType", PStr "trainedAlgorithmicMedia")])] = true /\
  is_object (PStr "c2pa.edited") = false /\
  scan_actions
    ([PDict (dict [("digitalSourceType", PStr "trainedAlgorithmicMedia")])] ++
     PStr "c2pa.edited" :: []) false
  = Raise (AttributeError (PStr "c2pa.edited") "get").
Proof.
  split; [reflexivity|]. split; [reflexivity|].
  exact (scan_actions_malformed_action
           [PDict (dict [("digitalSourceType", PStr "trainedAlgorithmicMedia")])]
           (PStr "c2pa.edited") [] false eq_refl eq_refl).
Defined.

(** X8. [predict] on a path that does not exist returns the pair
    ('Error', 'Image not found at ' + path) without opening anything or
    calling a model, and leaves the machine as it is. *)
Theorem predict_missing_file w p fp mc :
  fp ∉ fs mc ->
  predict w p fp mc =
  (Return ("Error", PStr ("Image not found at " +:+ fp)), mc).
Proof.
  intros Hout. unfold predict. run.
  rewrite (bool_decide_eq_false_2 _ Hout). run. by destruct mc.
Qed.

Lemma predict_missing_file_witness :
  ("uploads/gone.png" ∉ fs start) /\
  predict sample_world (sample_models (87 # 100)) "uploads/gone.png" start =
  (Return ("Error", PStr "Image not found at uploads/gone.png"), start).
Proof.
  assert (Hout : "uploads/gone.png" ∉ fs start)
    by (cbn [fs start]; apply not_elem_of_empty).
  split; [exact Hout|].
  exact (predict_missing_file sample_world (sample_models (87 # 100))
           "uploads/gone.png" start Hout).
Defined.

(** X9. In [predict] the stages run in the order ResNet, ViT, polynomial
    transform, meta-model, the scores go to the transform as
    [ResNet, ViT], and the first stage that raises ends the call: its
    exception leaves [predict] and no later stage is called. *)
Theorem predict_stops_at_first_failure w p fp mc img :
  fp ∈ fs mc ->
  image_open_rgb w fp = Return img ->
  (forall e,
     resnet p img = Raise e ->
     predict w p fp mc =
     (Raise e, {| fs := fs mc;
                  trace := trace mc ++ [EvImageOpen fp; EvResNet] |})) /\
  (forall a e,
     resnet p img = Return a ->
     vit p img = Raise e ->
     predict w p fp mc =
     (Raise e, {| fs := fs mc;
                  trace := trace mc ++ [EvImageOpen fp; EvResNet; EvViT] |})) /\
  (forall a b e,
     resnet p img = Return a ->
     vit p img = Return b ->
     poly p [a; b] = Raise e ->
     predict w p fp mc =
     (Raise e, {| fs := fs mc;
                  trace := trace mc ++
                    [EvImageOpen fp; EvResNet; EvViT; EvPolyTransform] |})) /\
  (forall a b feats e,
     resnet p img = Return a ->
     vit p img = Return b ->
     poly p [a; b] = Return feats ->
     meta_model p feats = Raise e ->
     predict w p fp mc =
     (Raise e, {| fs := fs mc;
                  trace := trace mc ++ all_ensemble_events fp |})).
Proof.
  intros Hin Hopen.
  assert (Hstart : forall k : Image -> M Machine (string * pyval),
    (do there <- os_path_exists fp;
     if negb there
     then ret ("Error", PStr ("Image not found at " +:+ fp))
     else
       do opened <-
         try_except
           (do img <- call (EvImageOpen fp) (image_open_rgb w fp); ret (inl img))
           (fun e => ret (inr ("Error", PStr ("Invalid image file: " +:+ exn_str e))));
       match opened with
       | inr early => ret early
       | inl img => k img
       end)%py mc
    = k img {| fs := fs mc; trace := trace mc ++ [EvImageOpen fp] |}).
  { intros k. run. rewrite (bool_decide_eq_true_2 _ Hin). run.
    rewrite Hopen. by run. }
  unfold predict. rewrite Hstart.
  repeat split.
  - intros e Ha. run. rewrite Ha. run. by rewrite <- app_assoc.
  - intros a e Ha Hb. run. rewrite Ha. run. rewrite Hb. run.
    by rewrite <- !app_assoc.
  - intros a b e Ha Hb Hfeats. run. rewrite Ha. run. rewrite Hb. run.
    rewrite Hfeats. run. by rewrite <- !app_assoc.
  - intros a b feats e Ha Hb Hfeats Hprob. run. rewrite Ha. run.
    rewrite Hb. run. rewrite Hfeats. run. rewrite Hprob. run.
    by rewrite <- !app_assoc.
Qed.

Lemma predict_stops_at_first_failure_witness :
  ("uploads/blank.png" ∈ fs {| fs := {["uploads/blank.png"]}; trace := [] |}) /\
  image_open_rgb sample_world "uploads/blank.png" = Return [] /\
  predict sample_world (sample_models (87 # 100)) "uploads/blank.png"
    {| fs := {["uploads/blank.png"]}; trace := [] |} =
  (Raise (Exn "RuntimeError" "cannot resize an image without pixels"),
   {| fs := {["uploads/blank.png"]};
      trace := [EvImageOpen "uploads/blank.png"; EvResNet] |}).
Proof.
  assert (Hin : "uploads/blank.png"
                ∈ fs {| fs := {["uploads/blank.png"]}; trace := [] |})
    by (cbn [fs]; by apply elem_of_singleton_2).
  split; [exact Hin|]. split; [reflexivity|].
  destruct (predict_stops_at_first_failure sample_world
              (sample_models (87 # 100)) "uploads/blank.png" _ [] Hin eq_refl)
    as [Hresnet _].
  exact (Hresnet _ eq_refl).
Defined.

(** X10. The confidence does not determine the fused probability: for
    every probability from 0 to 2^-54 the subtraction 1 - p rounds to 1
    and [predict] returns ('Real Image', 1.0). *)
Theorem tiny_probability_reports_full_confidence w p fp mc img a b feats prob :
  fp ∈ fs mc ->
  image_open_rgb w fp = Return img ->
  resnet p img = Return a ->
  vit p img = Return b ->
  poly p [a; b] = Return feats ->
  meta_model p feats = Return prob ->
  (0 <= prob <= 1 # 18014398509481984)%Q ->
  exists c mc',
    predict w p fp mc = (Return ("Real Image", PFloat c), mc') /\
    (c == 1)%Q.
Proof.
  intros Hin Hopen Ha Hb Hfeats Hprob [Hlo Hhi].
  rewrite (predict_run _ _ _ _ Hin).
  destruct (ensemble_fused w p fp img a b feats prob Hopen Ha Hb Hfeats Hprob)
    as [-> _].
  assert (Hle : (prob <= 1 # 2)%Q) by lra.
  rewrite (label_and_confidence_below _ Hle). cbn [fst snd].
  eexists _, _. split; [reflexivity|].
  apply Qle_antisym.
  - apply Qle_trans with (round64 1); [apply round64_mono; lra|].
    rewrite round64_one. apply Qle_refl.
  - apply Qle_trans with (round64 (1 - (1 # 18014398509481984))).
    + vm_compute. discriminate.
    + apply round64_mono; lra.
Qed.

Lemma tiny_probability_reports_full_confidence_witness :
  ("uploads/photo.png" ∈ fs {| fs := {["uploads/photo.png"]}; trace := [] |}) /\
  (0 <= 1 # 1152921504606846976 <= 1 # 18014398509481984)%Q /\
  exists c mc',
    predict sample_world (sample_models (1 # 1152921504606846976))
      "uploads/photo.png" {| fs := {["uploads/photo.png"]}; trace := [] |}
    = (Return ("Real Image", PFloat c), mc') /\
    (c == 1)%Q.
Proof.
  assert (Hin : "uploads/photo.png"
                ∈ fs {| fs := {["uploads/photo.png"]}; trace := [] |})
    by (cbn [fs]; by apply elem_of_singleton_2).
  assert (Hrange : (0 <= 1 # 1152921504606846976 <= 1 # 18014398509481984)%Q)
    by (split; discriminate).
  split; [exact Hin|]. split; [exact Hrange|].
  exact (tiny_probability_reports_full_confidence sample_world
           (sample_models (1 # 1152921504606846976)) "uploads/photo.png" _
           [(200%Z, 120%Z, 40%Z)] (9 # 10) (8 # 10)
           [1; 9 # 10; 8 # 10; (9 # 10) * (9 # 10); (9 # 10) * (8 # 10);
            (8 # 10) * (8 # 10)]%Q (1 # 1152921504606846976)
           Hin eq_refl eq_refl eq_refl eq_refl eq_refl Hrange).
Defined.

Lemma label_and_confidence_range prob :
  (0 <= prob <= 1)%Q ->
  (1 # 2 <= (label_and_confidence prob).2 <= 1)%Q.
Proof.
  intros [Hlo Hhi].
  destruct (Qlt_le_dec (1 # 2) prob) as [Hlt | Hle].
  - rewrite (label_and_confidence_above _ Hlt). cbn [snd]. lra.
  - rewrite (label_and_confidence_below _ Hle). cbn [snd]. split.
    + apply round64_above_half. lra.
    + apply Qle_trans with (round64 1); [apply round64_mono; lra|].
      rewrite round64_one. apply Qle_refl.
Qed.

(** X11. When the request reaches the fusion and the meta-model returns a
    probability in [0,1], the confidence of the result is a number
    between 50 and 100: the ensemble never reports less than 50. *)
Theorem fused_confidence_between_50_and_100
    w p request name mc d img a b feats prob :
  upload_of request = Some name ->
  manifest_record w (staged_path w name) = Return d ->
  present d = false ->
  image_open_rgb w (staged_path w name) = Return img ->
  resnet p img = Return a ->
  vit p img = Return b ->
  poly p [a; b] = Return feats ->
  meta_model p feats = Return prob ->
  (0 <= prob <= 1)%Q ->
  exists r mc' c,
    analyze_image w (Some p) request mc = (Return (Ok r), mc') /\
    success r = true /\
    confidence r = PFloat c /\
    (50 <= c <= 100)%Q.
Proof.
  intros Hup Hd Hp Hopen Ha Hb Hfeats Hprob Hrange.
  destruct (analyze_image_path w (Some p) request name mc d Hup Hd)
    as (r & evs & Hrun & Hpath).
  destruct (ensemble_fused w p _ img a b feats prob Hopen Ha Hb Hfeats Hprob)
    as [Hfused _].
  destruct Hpath as [Hp' | _ Hpr | p' label conf cp _ Hpr Hens Hcp | p' e _ Hpr Hens];
    [congruence | discriminate Hpr | | injection Hpr as <-; congruence].
  injection Hpr as <-. rewrite Hfused in Hens. injection Hens as <- <-.
  cbn [py_mul_int] in Hcp. injection Hcp as <-.
  eexists _, _, _. split; [exact Hrun|].
  cbn [confidence success]. split; [reflexivity|]. split; [reflexivity|].
  pose proof (label_and_confidence_range prob Hrange) as [Hlo Hhi].
  change (inject_Z 100) with 100%Q. split.
  - apply Qle_trans with (round64 50); [rewrite round64_50; apply Qle_refl|].
    apply round64_mono; lra.
  - apply Qle_trans with (round64 100); [apply round64_mono; lra|].
    rewrite round64_100. apply Qle_refl.
Qed.

Lemma fused_confidence_between_50_and_100_witness :
  upload_of (upload "photo.png") = Some "photo.png" /\
  present no_manifest_record = false /\
  (0 <= 87 # 100 <= 1)%Q /\
  exists r mc' c,
    analyze_image sample_world (Some (sample_models (87 # 100)))
      (upload "photo.png") start = (Return (Ok r), mc') /\
    success r = true /\
    confidence r = PFloat c /\
    (50 <= c <= 100)%Q.
Proof.
  assert (Hrange : (0 <= 87 # 100 <= 1)%Q) by (split; discriminate).
  split; [reflexivity|]. split; [reflexivity|]. split; [exact Hrange|].
  exact (fused_confidence_between_50_and_100 sample_world
           (sample_models (87 # 100)) (upload "photo.png") "photo.png" start
           no_manifest_record [(200%Z, 120%Z, 40%Z)] (9 # 10) (8 # 10)
           [1; 9 # 10; 8 # 10; (9 # 10) * (9 # 10); (9 # 10) * (8 # 10);
            (8 # 10) * (8 # 10)]%Q (87 # 100)
           eq_refl (photo_manifest_record "photo.png" eq_refl) eq_refl
           eq_refl eq_refl eq_refl eq_refl eq_refl Hrange).
Defined.

(** X12. Whatever [predict] returns is one of three things: the label
    'Error' with a message string, or the label 'AI Image' or
    'Real Image' with a number; and [predict] never changes the file
    system. *)
Theorem predict_returns_label_and_payload w p fp mc label conf mc' :
  predict w p fp mc = (Return (label, conf), mc') ->
  fs mc' = fs mc /\
  ((label = "Error" /\ exists msg, conf = PStr msg) \/
   ((label = "AI Image" \/ label = "Real Image") /\ exists c, conf = PFloat c)).
Proof.
  destruct (decide (fp ∈ fs mc)) as [Hin | Hout].
  - rewrite (predict_run _ _ _ _ Hin). intros [= Hout <-].
    split; [reflexivity|].
    destruct (ensemble_cases w p fp)
      as [(e & _ & He & _) | [(prob & He & _) | (e & evs & He & _)]];
      rewrite He in Hout; [| |discriminate].
    + injection Hout as <- <-. left. split; [done | by eexists].
    + injection Hout as <- <-. right. split; [|by eexists].
      destruct (Qlt_le_dec (1 # 2) prob) as [Hlt | Hle].
      * rewrite (label_and_confidence_above _ Hlt). by left.
      * rewrite (label_and_confidence_below _ Hle). by right.
  - unfold predict. run. rewrite (bool_decide_eq_false_2 _ Hout). run.
    intros [= <- <- <-]. split; [reflexivity|].
    left. split; [done | by eexists].
Qed.

Lemma predict_returns_label_and_payload_witness :
  predict sample_world (sample_models (87 # 100)) "uploads/notes.png"
    {| fs := {["uploads/notes.png"]}; trace := [] |}
  = (Return ("Error",
             PStr "Invalid image file: cannot identify image file 'uploads/notes.png'"),
     {| fs := {["uploads/notes.png"]};
        trace := [EvImageOpen "uploads/notes.png"] |}) /\
  fs {| fs := {["uploads/notes.png"]};
        trace := [EvImageOpen "uploads/notes.png"] |}
  = fs {| fs := {["uploads/notes.png"]}; trace := [] |} /\
  (("Error" = "Error" /\
    exists msg,
      PStr "Invalid image file: cannot identify image file 'uploads/notes.png'"
      = PStr msg) \/
   (("Error" = "AI Image" \/ "Error" = "Real Image") /\
    exists c,
      PStr "Invalid image file: cannot identify image file 'uploads/notes.png'"
      = PFloat c)).
Proof.
  assert (Hrun :
    predict sample_world (sample_models (87 # 100)) "uploads/notes.png"
      {| fs := {["uploads/notes.png"]}; trace := [] |}
    = (Return ("Error",
               PStr "Invalid image file: cannot identify image file 'uploads/notes.png'"),
       {| fs := {["uploads/notes.png"]};
          trace := [EvImageOpen "uploads/notes.png"] |})).
  { rewrite predict_run by (cbn [fs]; by apply elem_of_singleton_2).
    destruct (ensemble_undecodable sample_world (sample_models (87 # 100))
                "uploads/notes.png"
                (Exn "UnidentifiedImageError"
                     "cannot identify image file 'uploads/notes.png'") eq_refl)
      as [-> ->].
    reflexivity. }
  split; [exact Hrun|].
  exact (predict_returns_label_and_payload _ _ _ _ _ _ _ Hrun).
Defined.

(** X13. The constructor returns a predictor exactly when the ResNet
    weights and both joblib files exist and the four loaders return; the
    predictor holds what the loaders returned, and the machine is left as
    it was. *)
Theorem predictor_loads_iff w mc p :
  AIEnsemblePredictor_init w mc = (Return p, mc) <->
  RESNET_PATH ∈ fs mc /\
  META_LEARNER_PATH ∈ fs mc /\
  POLY_TRANSFORM_PATH ∈ fs mc /\
  torch_load_resnet w = Return (resnet p) /\
  vit_from_pretrained w = Return (vit p) /\
  joblib_load_meta w = Return (meta_model p) /\
  joblib_load_poly w = Return (poly p).
Proof.
  unfold AIEnsemblePredictor_init. split.
  - run.
    destruct (bool_decide (RESNET_PATH ∈ fs mc)) eqn:H1; run; [|discriminate].
    destruct (torch_load_resnet w) as [r|e]; run; [|discriminate].
    destruct (vit_from_pretrained w) as [v|e]; run; [|discriminate].
    destruct (bool_decide (META_LEARNER_PATH ∈ fs mc)) eqn:H2;
      destruct (bool_decide (POLY_TRANSFORM_PATH ∈ fs mc)) eqn:H3;
      cbn [andb]; run; try discriminate.
    destruct (joblib_load_meta w) as [m|e]; run; [|discriminate].
    destruct (joblib_load_poly w) as [pl|e]; run; [|discriminate].
    intros [= <-]. cbn [resnet vit meta_model poly].
    apply bool_decide_eq_true in H1, H2, H3. done.
  - intros (H1 & H2 & H3 & Hr & Hv & Hm & Hp). run.
    rewrite (bool_decide_eq_true_2 _ H1). run. rewrite Hr. run.
    rewrite Hv. run.
    rewrite (bool_decide_eq_true_2 _ H2), (bool_decide_eq_true_2 _ H3).
    cbn [andb]. run. rewrite Hm. run. rewrite Hp. run. by destruct p.
Qed.

(** X14. The ResNet weights are looked for first: when that file is
    missing the constructor raises FileNotFoundError naming its path,
    whatever else is there. When the weights and the ViT load and one of
    the two joblib files is missing, it raises the FileNotFoundError of
    the meta-learner. Neither touches the machine. *)
Theorem predictor_missing_files w mc :
  (RESNET_PATH ∉ fs mc ->
   AIEnsemblePredictor_init w mc =
   (Raise (FileNotFoundError
             "Could not find ResNet model at model_output/resnet50_finetuned_benchmark.pth"),
    mc)) /\
  (forall r v,
     RESNET_PATH ∈ fs mc ->
     torch_load_resnet w = Return r ->
     vit_from_pretrained w = Return v ->
     META_LEARNER_PATH ∉ fs mc \/ POLY_TRANSFORM_PATH ∉ fs mc ->
     AIEnsemblePredictor_init w mc =
     (Raise (FileNotFoundError
       "Meta-learner files not found! Run the training script first to generate .joblib files."),
      mc)).
Proof.
  unfold AIEnsemblePredictor_init. split.
  - intros H1. run. by rewrite (bool_decide_eq_false_2 _ H1).
  - intros r v H1 Hr Hv Hmissing. run.
    rewrite (bool_decide_eq_true_2 _ H1). run. rewrite Hr. run.
    rewrite Hv. run.
    destruct Hmissing as [H2 | H3].
    + by rewrite (bool_decide_eq_false_2 _ H2).
    + rewrite (bool_decide_eq_false_2 _ H3). by rewrite andb_false_r.
Qed.

Lemma predictor_missing_files_witness :
  (RESNET_PATH ∉ fs start) /\
  AIEnsemblePredictor_init sample_world start =
  (Raise (FileNotFoundError
            "Could not find ResNet model at model_output/resnet50_finetuned_benchmark.pth"),
   start).
Proof.
  assert (Hout : RESNET_PATH ∉ fs start)
    by (cbn [fs start]; apply not_elem_of_empty).
  split; [exact Hout|].
  destruct (predictor_missing_files sample_world start) as [Hresnet _].
  exact (Hresnet Hout).
Defined.

Lemma init_keeps_machine w mc : (AIEnsemblePredictor_init w mc).2 = mc.
Proof.
  unfold AIEnsemblePredictor_init. run.
  destruct (bool_decide (RESNET_PATH ∈ fs mc)); run; [|done].
  destruct (torch_load_resnet w) as [r|e]; run; [|done].
  destruct (vit_from_pretrained w) as [v|e]; run; [|done].
  destruct (bool_decide (META_LEARNER_PATH ∈ fs mc));
    destruct (bool_decide (POLY_TRANSFORM_PATH ∈ fs mc));
    cbn [andb]; run; try done.
  destruct (joblib_load_meta w) as [m|e]; run; [|done].
  by destruct (joblib_load_poly w) as [pl|e]; run.
Qed.

(** X15. Loading the predictor at startup never raises and leaves the
    machine as it was: the module global is the predictor when the
    constructor returned one and [None] when it raised, whatever it
    raised. *)
Theorem load_predictor_never_raises w mc :
  exists pr,
    load_predictor w mc = (Return pr, mc) /\
    (forall p, pr = Some p <-> AIEnsemblePredictor_init w mc = (Return p, mc)) /\
    (pr = None <-> exists e, AIEnsemblePredictor_init w mc = (Raise e, mc)).
Proof.
  pose proof (init_keeps_machine w mc) as Hkeep.
  unfold load_predictor. run.
  destruct (AIEnsemblePredictor_init w mc) as [[p|e] mc'];
    cbn [snd] in Hkeep; subst mc'.
  - exists (Some p). split; [reflexivity|]. split.
    + intros p'. split; [intros [= <-]; reflexivity | intros [= <-]; reflexivity].
    + split; [discriminate | intros [e He]; discriminate He].
  - exists None. split; [reflexivity|]. split.
    + intros p'. split; discriminate.
    + split; [intros _; by exists e | done].
Qed.

Lemma append_cons c a b : String c a +:+ b = String c (a +:+ b).
Proof. reflexivity. Qed.

Lemma has_dot_app a b : has_dot (a +:+ b) = has_dot a || has_dot b.
Proof.
  induction a as [|c a IH]; [done|].
  rewrite append_cons. cbn [has_dot]. by rewrite IH, orb_assoc.
Qed.

Lemma after_last_dot_app stem ext :
  has_dot ext = false -> after_last_dot (stem +:+ "." +:+ ext) = ext.
Proof.
  intros Hext. induction stem as [|c stem IH].
  - change ("" +:+ "." +:+ ext) with (String "." ext).
    cbn [after_last_dot]. rewrite Hext.
    change (is_dot ".") with true. reflexivity.
  - rewrite append_cons. cbn [after_last_dot]. rewrite has_dot_app.
    change (has_dot ("." +:+ ext)) with (true || has_dot ext).
    rewrite orb_true_r. exact IH.
Qed.

Lemma has_dot_split s :
  has_dot s = true ->
  exists stem,
    s = stem +:+ "." +:+ after_last_dot s /\ has_dot (after_last_dot s) = false.
Proof.
  induction s as [|c s IH]; [discriminate|].
  cbn [has_dot after_last_dot]. intros Hdot.
  destruct (has_dot s) eqn:Hs.
  - destruct (IH eq_refl) as (stem & Hsplit & Hext).
    exists (String c stem). split; [|exact Hext].
    rewrite append_cons. by rewrite <- Hsplit.
  - rewrite orb_false_r in Hdot. rewrite Hdot.
    exists "". split; [|exact Hs].
    unfold is_dot in Hdot. apply Ascii.eqb_eq in Hdot. by subst c.
Qed.

(** X16. [allowed_file] accepts exactly the names that have a dot and
    whose text after the last dot, lower-cased, is png, jpg, jpeg or
    webp: only the last extension counts, in any letter case, and a name
    without a dot or ending in a dot is refused. *)
Theorem allowed_file_iff name :
  allowed_file name = true <->
  exists stem ext,
    name = stem +:+ "." +:+ ext /\
    has_dot ext = false /\
    In (lower ext) ALLOWED_EXTENSIONS.
Proof.
  unfold allowed_file. split.
  - intros Hallowed. apply andb_prop in Hallowed as [Hdot Hext].
    destruct (has_dot_split name Hdot) as (stem & Hsplit & Hnodot).
    exists stem, (after_last_dot name). split; [exact Hsplit|].
    split; [exact Hnodot|].
    apply existsb_exists in Hext as (x & Hin & Heq).
    apply String.eqb_eq in Heq. by rewrite Heq.
  - intros (stem & ext & -> & Hnodot & Hin).
    rewrite has_dot_app, (after_last_dot_app _ _ Hnodot).
    change (has_dot ("." +:+ ext)) with (true || has_dot ext).
    rewrite orb_true_r. cbn [andb].
    apply existsb_exists. exists (lower ext). split; [exact Hin|].
    apply String.eqb_refl.
Qed.

(** X17. The three refusals of the route, in the order they are tested:
    no 'file' part, an empty filename, a filename that [allowed_file]
    refuses. Each answers 400 with its own message and nothing is saved,
    checked or slept. *)
Theorem rejected_requests w pr request mc :
  (files request !! "file" = None ->
   analyze_image w pr request mc = (Return (BadRequest "No file provided"), mc)) /\
  (forall file,
     files request !! "file" = Some file ->
     upload_filename file = "" ->
     analyze_image w pr request mc = (Return (BadRequest "No file selected"), mc)) /\
  (forall file,
     files request !! "file" = Some file ->
     upload_filename file <> "" ->
     allowed_file (upload_filename file) = false ->
     analyze_image w pr request mc
     = (Return (BadRequest "File type not allowed"), mc)).
Proof.
  unfold analyze_image. repeat split.
  - by intros ->.
  - intros file -> ->. reflexivity.
  - intros file -> Hname Hallowed. apply String.eqb_neq in Hname.
    by rewrite Hname, Hallowed.
Qed.

Lemma rejected_requests_witness :
  files (upload "clip.gif") !! "file" = Some {| upload_filename := "clip.gif" |} /\
  "clip.gif" <> "" /\
  allowed_file "clip.gif" = false /\
  analyze_image sample_world None (upload "clip.gif") start
  = (Return (BadRequest "File type not allowed"), start).
Proof.
  split; [reflexivity|]. split; [discriminate|]. split; [reflexivity|].
  destruct (rejected_requests sample_world None (upload "clip.gif") start)
    as (_ & _ & Htype).
  exact (Htype {| upload_filename := "clip.gif" |} eq_refl
           ltac:(discriminate) eq_refl).
Defined.

(** X18. In the result of every accepted request the flags agree:
    success is true exactly when there is no 'error' key and exactly when
    a final verdict is set; a failed request keeps the confidence 0,
    is_ai_generated false and an unset ensemble layer. *)
Theorem result_flags_agree w pr request name mc :
  upload_of request = Some name ->
  exists r mc',
    analyze_image w pr request mc = (Return (Ok r), mc') /\
    (success r = true <-> error r = None) /\
    (success r = true <-> final_verdict r <> PNone) /\
    (success r = false ->
       confidence r = PInt 0 /\ is_ai_generated r = false /\
       ai_model (layers r) = PNone).
Proof.
  intros Hup.
  destruct (manifest_record_shape w (staged_path w name)) as (d & Hd & _).
  destruct (analyze_image_path w pr request name mc d Hup Hd)
    as (r & evs & Hrun & Hpath).
  eexists r, _. split; [exact Hrun|].
  destruct Hpath;
    cbn [success error final_verdict confidence is_ai_generated layers ai_model];
    repeat split; try done; try discriminate.
Qed.

Lemma result_flags_agree_witness :
  upload_of (upload "blank.png") = Some "blank.png" /\
  exists r mc',
    analyze_image sample_world (Some (sample_models (87 # 100)))
      (upload "blank.png") start = (Return (Ok r), mc') /\
    (success r = true <-> error r = None) /\
    (success r = true <-> final_verdict r <> PNone) /\
    (success r = false ->
       confidence r = PInt 0 /\ is_ai_generated r = false /\
       ai_model (layers r) = PNone).
Proof.
  split; [reflexivity|].
  exact (result_flags_agree sample_world (Some (sample_models (87 # 100)))
           (upload "blank.png") "blank.png" start eq_refl).
Defined.

Lemma ensemble_labels w p fp label conf :
  ensemble_outcome w p fp = Return (label, conf) ->
  label = "Error" \/ label = "AI Image" \/ label = "Real Image".
Proof.
  intros Hens.
  destruct (ensemble_cases w p fp)
    as [(e & _ & He & _) | [(prob & He & _) | (e & evs & He & _)]];
    rewrite He in Hens; [| |discriminate]; injection Hens as <- <-.
  - by left.
  - right. destruct (Qlt_le_dec (1 # 2) prob) as [Hlt | Hle].
    + rewrite (label_and_confidence_above _ Hlt). by left.
    + rewrite (label_and_confidence_below _ Hle). by right.
Qed.

(** X19. In the result of every accepted request is_ai_generated is true
    exactly when the final verdict is 'AI Generated (C2PA Verified)' or
    'AI Image'. *)
Theorem is_ai_generated_iff_verdict w pr request name mc :
  upload_of request = Some name ->
  exists r mc',
    analyze_image w pr request mc = (Return (Ok r), mc') /\
    (is_ai_generated r = true <->
     final_verdict r = PStr "AI Generated (C2PA Verified)" \/
     final_verdict r = PStr "AI Image").
Proof.
  intros Hup.
  destruct (manifest_record_shape w (staged_path w name)) as (d & Hd & _).
  destruct (analyze_image_path w pr request name mc d Hup Hd)
    as (r & evs & Hrun & Hpath).
  eexists r, _. split; [exact Hrun|].
  destruct Hpath as [_ | _ _ | p label conf cp _ _ Hens _ | p e _ _ _];
    cbn [is_ai_generated final_verdict].
  - split; [by left | done].
  - split; [discriminate | intros [? | ?]; discriminate].
  - split.
    + intros Heq. apply String.eqb_eq in Heq. right. by rewrite Heq.
    + intros [[= ->] | [= ->]]; [|reflexivity].
      destruct (ensemble_labels _ _ _ _ _ Hens) as [? | [? | ?]]; discriminate.
  - split; [discriminate | intros [? | ?]; discriminate].
Qed.

Lemma is_ai_generated_iff_verdict_witness :
  upload_of (upload "camera.jpg") = Some "camera.jpg" /\
  exists r mc',
    analyze_image sample_world None (upload "camera.jpg") start
      = (Return (Ok r), mc') /\
    (is_ai_generated r = true <->
     final_verdict r = PStr "AI Generated (C2PA Verified)" \/
     final_verdict r = PStr "AI Image").
Proof.
  split; [reflexivity|].
  exact (is_ai_generated_iff_verdict sample_world None (upload "camera.jpg")
           "camera.jpg" start eq_refl).
Defined.

(** X20. An accepted request ends with success false exactly when it was
    not short-circuited, the predictor is loaded and [predict] raised on
    the staged file. Nothing the provenance check does, and no missing
    predictor, makes a request fail. *)
Theorem request_fails_iff_predict_raises w pr request name mc d :
  upload_of request = Some name ->
  manifest_record w (staged_path w name) = Return d ->
  exists r mc',
    analyze_image w pr request mc = (Return (Ok r), mc') /\
    (success r = false <->
     present d = false /\
     exists p e,
       pr = Some p /\ ensemble_outcome w p (staged_path w name) = Raise e).
Proof.
  intros Hup Hd.
  destruct (analyze_image_path w pr request name mc d Hup Hd)
    as (r & evs & Hrun & Hpath).
  eexists r, _. split; [exact Hrun|].
  destruct Hpath as [Hp | Hp -> | p label conf cp Hp -> Hens _ | p e Hp -> Hens];
    cbn [success].
  - split; [discriminate | intros [Hp' _]; congruence].
  - split; [discriminate | intros (_ & p & e & Hpr & _); discriminate Hpr].
  - split; [discriminate|].
    intros (_ & p' & e & [= <-] & Hraise). congruence.
  - split; [|done]. intros _. split; [exact Hp|]. by exists p, e.
Qed.

Lemma request_fails_iff_predict_raises_witness :
  upload_of (upload "blank.png") = Some "blank.png" /\
  manifest_record sample_world (staged_path sample_world "blank.png")
    = Return no_manifest_record /\
  exists r mc',
    analyze_image sample_world (Some (sample_models (87 # 100)))
      (upload "blank.png") start = (Return (Ok r), mc') /\
    (success r = false <->
     present no_manifest_record = false /\
     exists p e,
       Some (sample_models (87 # 100)) = Some p /\
       ensemble_outcome sample_world p (staged_path sample_world "blank.png")
       = Raise e).
Proof.
  split; [reflexivity|]. split; [by apply photo_manifest_record|].
  exact (request_fails_iff_predict_raises sample_world
           (Some (sample_models (87 # 100))) (upload "blank.png") "blank.png"
           start no_manifest_record eq_refl
           (photo_manifest_record "blank.png" eq_refl)).
Defined.

(** X21. An accepted request changes the file system only at the staged
    path: afterwards a path exists exactly when it existed before and is
    not the staged path. A file that was already there under the staged
    name is overwritten and removed with it. *)
Theorem analyze_image_touches_only_staged_file w pr request name mc :
  upload_of request = Some name ->
  exists r mc',
    analyze_image w pr request mc = (Return (Ok r), mc') /\
    forall path,
      path ∈ fs mc' <-> path ∈ fs mc /\ path <> staged_path w name.
Proof.
  intros Hup.
  destruct (manifest_record_shape w (staged_path w name)) as (d & Hd & _).
  destruct (analyze_image_path w pr request name mc d Hup Hd)
    as (r & evs & Hrun & _).
  eexists r, _. split; [exact Hrun|]. intros path. cbn [fs].
  rewrite elem_of_difference, elem_of_union, !elem_of_singleton. tauto.
Qed.

Lemma analyze_image_touches_only_staged_file_witness :
  upload_of (upload "photo.png") = Some "photo.png" /\
  exists r mc',
    analyze_image sample_world None (upload "photo.png") installed
      = (Return (Ok r), mc') /\
    forall path,
      path ∈ fs mc' <->
      path ∈ fs installed /\ path <> staged_path sample_world "photo.png".
Proof.
  split; [reflexivity|].
  exact (analyze_image_touches_only_staged_file sample_world None
           (upload "photo.png") "photo.png" installed eq_refl).
Defined.

Lemma manifest_record_available w fp d :
  C2PA_AVAILABLE w = true ->
  manifest_record w fp = Return d ->
  d !! "available" = None /\ d !! "status" = None.
Proof.
  intros Hav. unfold manifest_record, check_c2pa, check_c2pa_try, read_manifest.
  rewrite Hav. run.
  destruct (c2pa_reader_json w fp) as [s|e]; run; [|by intros [= <-]].
  destruct (String.eqb s ""); run; [by intros [= <-]|].
  destruct (json_loads w s) as [md|e]; run; [|by intros [= <-]].
  destruct (py_get md "active_manifest" PNone) as [lbl|e]; run;
    [|by intros [= <-]].
  destruct (truthy lbl); run; [|by intros [= <-]].
  match goal with
  | |- context [obind ?a ?b] => destruct (obind a b) as [d0|e] eqn:Hchain
  end; run; [|by intros [= <-]].
  intros [= <-].
  repeat (apply obind_Return_inv in Hchain; destruct Hchain as (? & _ & Hchain)).
  by injection Hchain as <-.
Qed.

(** X22. The status of the provenance layer of an accepted request:
    'verified' when the manifest is present; 'unavailable' when the
    platform has no c2pa library; and in every other case the layer is
    the Manifest Record as [check_c2pa] returned it, with no status. *)
Theorem provenance_layer_status w pr request name mc d :
  upload_of request = Some name ->
  manifest_record w (staged_path w name) = Return d ->
  exists r mc',
    analyze_image w pr request mc = (Return (Ok r), mc') /\
    (present d = true ->
       getitem "status" (c2pa (layers r)) = PStr "verified") /\
    (C2PA_AVAILABLE w = false ->
       getitem "status" (c2pa (layers r)) = PStr "unavailable") /\
    (C2PA_AVAILABLE w = true ->
     present d = false ->
       c2pa (layers r) = PDict d /\
       getitem "status" (c2pa (layers r)) = PNone /\
       outcome_of (c2pa (layers r)) = Unclassified).
Proof.
  intros Hup Hd.
  destruct (analyze_image_path w pr request name mc d Hup Hd)
    as (r & evs & Hrun & Hpath).
  eexists r, _. split; [exact Hrun|].
  assert (Hverified :
    getitem "status" (PDict (<["status" := PStr "verified"]> (mark_unavailable d)))
    = PStr "verified").
  { cbn [getitem]. by rewrite lookup_insert_eq. }
  assert (Hunavailable : C2PA_AVAILABLE w = false ->
    present d = false /\
    getitem "status" (PDict (mark_unavailable d)) = PStr "unavailable").
  { intros Hav.
    destruct (manifest_unavailable w (staged_path w name) Hav) as [Hd' _].
    rewrite Hd' in Hd. by injection Hd as <-. }
  assert (Hplain : C2PA_AVAILABLE w = true ->
    mark_unavailable d = d /\ d !! "status" = None).
  { intros Hav.
    destruct (manifest_record_available w _ d Hav Hd) as [Hnone Hstatus].
    unfold mark_unavailable. by rewrite Hnone. }
  destruct Hpath as [Hp | Hp _ | p label conf cp Hp _ _ _ | p e Hp _ _];
    cbn [layers c2pa].
  - split; [done|].
    split; [intros Hav; destruct (Hunavailable Hav); congruence|].
    intros _ Hp'. congruence.
  - split; [congruence|].
    split; [intros Hav; by destruct (Hunavailable Hav)|].
    intros Hav _. destruct (Hplain Hav) as [-> Hstatus].
    unfold outcome_of. cbn [getitem]. by rewrite Hstatus.
  - split; [congruence|].
    split; [intros Hav; by destruct (Hunavailable Hav)|].
    intros Hav _. destruct (Hplain Hav) as [-> Hstatus].
    unfold outcome_of. cbn [getitem]. by rewrite Hstatus.
  - split; [congruence|].
    split; [intros Hav; by destruct (Hunavailable Hav)|].
    intros Hav _. destruct (Hplain Hav) as [-> Hstatus].
    unfold outcome_of. cbn [getitem]. by rewrite Hstatus.
Qed.

Lemma provenance_layer_status_witness :
  upload_of (upload "photo.png") = Some "photo.png" /\
  manifest_record sample_world (staged_path sample_world "photo.png")
    = Return no_manifest_record /\
  exists r mc',
    analyze_image sample_world None (upload "photo.png") start
      = (Return (Ok r), mc') /\
    c2pa (layers r) = PDict no_manifest_record /\
    getitem "status" (c2pa (layers r)) = PNone /\
    outcome_of (c2pa (layers r)) = Unclassified.
Proof.
  split; [reflexivity|]. split; [by apply photo_manifest_record|].
  destruct (provenance_layer_status sample_world None (upload "photo.png")
              "photo.png" start no_manifest_record eq_refl
              (photo_manifest_record "photo.png" eq_refl))
    as (r & mc' & Hrun & _ & _ & Hplain).
  exists r, mc'. split; [exact Hrun|]. exact (Hplain eq_refl eq_refl).
Defined.

Lemma total_sleep_app (a b : list event) :
  total_sleep (a ++ b) = (total_sleep a + total_sleep b)%N.
Proof.
  induction a as [|e a IH]; [done|].
  cbn [app total_sleep foldr]. fold (total_sleep (a ++ b)) (total_sleep a).
  rewrite IH. lia.
Qed.

Lemma manifest_events_no_sleep w fp : total_sleep (manifest_events w fp) = 0%N.
Proof. destruct (manifest_events_cases w fp) as [-> | [-> | ->]]; done. Qed.

Lemma ensemble_events_no_sleep w p fp : total_sleep (ensemble_events w p fp) = 0%N.
Proof.
  destruct (ensemble_events_prefix w p fp) as [rest Hall].
  apply (f_equal total_sleep) in Hall. rewrite total_sleep_app in Hall.
  change (total_sleep (all_ensemble_events fp)) with 0%N in Hall. lia.
Qed.

(** X23. The simulated processing time of an accepted request: the calls
    to [time.sleep] add up to 2.5 seconds when the request is
    short-circuited and to 4.5 seconds otherwise, whether or not the
    predictor is loaded or fails. *)
Theorem simulated_delay w pr request name mc d :
  upload_of request = Some name ->
  manifest_record w (staged_path w name) = Return d ->
  exists r mc',
    analyze_image w pr request mc = (Return (Ok r), mc') /\
    total_sleep (new_events mc mc') = (if present d then 2500 else 4500)%N.
Proof.
  intros Hup Hd.
  destruct (analyze_image_path w pr request name mc d Hup Hd)
    as (r & evs & Hrun & Hpath).
  eexists r, _. split; [exact Hrun|].
  erewrite new_events_app by (cbn [trace]; reflexivity).
  change (total_sleep (?a :: ?b :: ?l)) with
    (sleep_of a + (sleep_of b + total_sleep l))%N.
  rewrite !total_sleep_app, manifest_events_no_sleep.
  destruct Hpath as [Hp | Hp _ | p label conf cp Hp _ _ _ | p e Hp _ _];
    rewrite Hp, ?total_sleep_app, ?ensemble_events_no_sleep; reflexivity.
Qed.

Lemma simulated_delay_witness :
  upload_of (upload "camera.jpg") = Some "camera.jpg" /\
  manifest_record sample_world (staged_path sample_world "camera.jpg")
    = Return camera_record /\
  exists r mc',
    analyze_image sample_world None (upload "camera.jpg") start
      = (Return (Ok r), mc') /\
    total_sleep (new_events start mc')
    = (if present camera_record then 2500 else 4500)%N.
Proof.
  split; [reflexivity|]. split; [exact camera_manifest_record|].
  exact (simulated_delay sample_world None (upload "camera.jpg") "camera.jpg"
           start camera_record eq_refl camera_manifest_record).
Defined.

(** X24. The route /api/forensic-report never raises and answers 200,
    400 or 500; every answer but 200 has success false; an empty body
    (null, an empty object, an empty list, zero) is refused with 400
    before the generator is called; and the generator is called at most
    once, with the body it was given. *)
Theorem forensic_report_answers get_json generate calls :
  exists body status calls',
    get_forensic_report get_json generate calls
      = (Return (body, status), calls') /\
    (status = 200 \/ status = 400 \/ status = 500) /\
    (status <> 200 -> getitem "success" body = PBool false) /\
    (status = 200 -> exists v, get_json = Return v /\ generate v = Return body) /\
    (status = 400 ->
       calls' = calls /\ exists v, get_json = Return v /\ truthy v = false) /\
    (calls' = calls \/
     exists v, get_json = Return v /\ truthy v = true /\ calls' = calls ++ [v]).
Proof.
  unfold get_forensic_report. run.
  destruct get_json as [v|e]; run.
  2: { eexists _, _, _. split; [reflexivity|]. split; [by right; right|].
       split; [by intros _|]. split; [discriminate|].
       split; [discriminate | by left]. }
  destruct (truthy v) eqn:Htruthy; run.
  2: { eexists _, _, _. split; [reflexivity|]. split; [by right; left|].
       split; [by intros _|]. split; [discriminate|].
       split; [intros _; split; [done | by exists v] | by left]. }
  destruct (generate v) as [report|e] eqn:Hgen; run.
  - eexists _, _, _. split; [reflexivity|]. split; [by left|].
    split; [done|]. split; [intros _; by exists v|].
    split; [discriminate | right; by exists v].
  - eexists _, _, _. split; [reflexivity|]. split; [by right; right|].
    split; [by intros _|]. split; [discriminate|].
    split; [discriminate | right; by exists v].
Qed.

Lemma prefix_iff a b :
  String.prefix a b = true <-> exists post, b = a +:+ post.
Proof.
  revert b. induction a as [|c a IH]; intros b.
  - split; [intros _; by exists b | by destruct b].
  - destruct b as [|c' b]; cbn [String.prefix].
    + split; [discriminate | intros [post Hpost]; discriminate Hpost].
    + destruct (ascii_dec c c') as [<- | Hne].
      * rewrite IH. split; intros [post Hpost]; exists post.
        -- rewrite append_cons. by rewrite Hpost.
        -- rewrite append_cons in Hpost. by injection Hpost.
      * split; [discriminate|]. intros [post Hpost].
        rewrite append_cons in Hpost. injection Hpost as Hc _. congruence.
Qed.

Lemma contains_iff needle hay :
  contains needle hay = true <->
  exists pre post, hay = pre +:+ needle +:+ post.
Proof.
  split.
  - induction hay as [|c hay IH]; cbn [contains]; intros Hc;
      apply orb_prop in Hc as [Hpre | Hrest]; try discriminate Hrest.
    + apply prefix_iff in Hpre as [post ->]. by exists "", post.
    + apply prefix_iff in Hpre as [post ->]. by exists "", post.
    + destruct (IH Hrest) as (pre & post & ->).
      exists (String c pre), post. by rewrite append_cons.
  - intros (pre & post & ->). induction pre as [|c pre IH].
    + change ("" +:+ needle +:+ post) with (needle +:+ post).
      assert (Hpre : String.prefix needle (needle +:+ post) = true)
        by (apply prefix_iff; by exists post).
      destruct (needle +:+ post); cbn [contains]; by rewrite Hpre.
    + rewrite append_cons. cbn [contains]. rewrite IH. apply orb_true_r.
Qed.

(** X25. The test of line 53 on a string is a substring test: a
    digitalSourceType that is a string marks the action as generated
    exactly when 'trainedAlgorithmicMedia' occurs somewhere in it, with
    these letter cases. *)
Theorem source_type_test_is_substring src :
  py_str_in "trainedAlgorithmicMedia" (PStr src) = Return true <->
  exists pre post, src = pre +:+ "trainedAlgorithmicMedia" +:+ post.
Proof.
  cbn [py_str_in]. rewrite <- contains_iff.
  split; [by intros [= ->] | by intros ->].
Qed.

(** X26. Every record [check_c2pa] returns with c2pa_present true has
    the keys valid, issuer, ai_generated and raw_data, valid and
    ai_generated are booleans, and it has neither 'error' nor 'message'
    nor 'available'. *)
Theorem present_record_is_complete w fp mc d mc' :
  check_c2pa w fp mc = (Return d, mc') ->
  present d = true ->
  (exists is_valid is_ai issuer raw,
     d !! "valid" = Some (PBool is_valid) /\
     d !! "ai_generated" = Some (PBool is_ai) /\
     d !! "issuer" = Some issuer /\
     d !! "raw_data" = Some raw) /\
  d !! "error" = None /\ d !! "message" = None /\ d !! "available" = None.
Proof.
  rewrite check_c2pa_run. intros Hrun Hp.
  destruct (manifest_record_shape w fp) as (d' & Hd' & Hshape).
  rewrite Hd' in Hrun. injection Hrun as -> _.
  destruct Hshape; try discriminate Hp.
  split; [by eexists _, _, _, _ | done].
Qed.

Lemma present_record_is_complete_witness :
  check_c2pa sample_world "uploads/camera.jpg" start
    = (Return camera_record,
       {| fs := ∅;
          trace := [EvC2paReader "uploads/camera.jpg"; EvJsonLoads] |}) /\
  present camera_record = true /\
  (exists is_valid is_ai issuer raw,
     camera_record !! "valid" = Some (PBool is_valid) /\
     camera_record !! "ai_generated" = Some (PBool is_ai) /\
     camera_record !! "issuer" = Some issuer /\
     camera_record !! "raw_data" = Some raw) /\
  camera_record !! "error" = None /\
  camera_record !! "message" = None /\
  camera_record !! "available" = None.
Proof.
  assert (Hrun : check_c2pa sample_world "uploads/camera.jpg" start
    = (Return camera_record,
       {| fs := ∅;
          trace := [EvC2paReader "uploads/camera.jpg"; EvJsonLoads] |}))
    by (vm_compute; reflexivity).
  split; [exact Hrun|]. split; [reflexivity|].
  exact (present_record_is_complete sample_world "uploads/camera.jpg" start
           camera_record _ Hrun eq_refl).
Defined.

(** X27. A request whose manifest is present is answered without the
    predictor: the response and the machine afterwards are the same
    whether the models are loaded, and whichever models they are. *)
Theorem short_circuit_ignores_predictor w request name mc d pr1 pr2 :
  upload_of request = Some name ->
  manifest_record w (staged_path w name) = Return d ->
  present d = true ->
  analyze_image w pr1 request mc = analyze_image w pr2 request mc.
Proof.
  intros Hup Hd Hp.
  destruct (analyze_image_path w pr1 request name mc d Hup Hd)
    as (r1 & evs1 & -> & Hpath1).
  destruct (analyze_image_path w pr2 request name mc d Hup Hd)
    as (r2 & evs2 & -> & Hpath2).
  destruct Hpath1; try congruence.
  destruct Hpath2; try congruence.
Qed.

Lemma short_circuit_ignores_predictor_witness :
  upload_of (upload "generated.png") = Some "generated.png" /\
  manifest_record sample_world (staged_path sample_world "generated.png")
    = Return generated_record /\
  present generated_record = true /\
  analyze_image sample_world None (upload "generated.png") start
  = analyze_image sample_world (Some (sample_models (13 # 100)))
      (upload "generated.png") start.
Proof.
  assert (Hd : manifest_record sample_world
                 (staged_path sample_world "generated.png")
               = Return generated_record) by (vm_compute; reflexivity).
  split; [reflexivity|]. split; [exact Hd|]. split; [reflexivity|].
  exact (short_circuit_ignores_predictor sample_world (upload "generated.png")
           "generated.png" start generated_record None
           (Some (sample_models (13 # 100))) eq_refl Hd eq_refl).
Defined.
